(** * airflow/operators/python_operator.py: the virtualenv operator

    A shallow embedding of [PythonOperator], of [BranchPythonOperator] and
    [ShortCircuitOperator], and of [PythonVirtualenvOperator] (construction
    checks, command builders, the argument codec, the script synthesizer
    and the orchestration in [execute_callable]), followed by the
    properties established about them.

    Conventions.
    - Python text and file contents are [string]s of characters below 256:
      the code points of a Python 3 str, the bytes of a Python 2 str and of
      a file. Where a theorem carries text through a file the text is
      ASCII, which every encoding that extends ASCII writes and reads as it
      is.
    - A dict with string keys is a [gmap string _].
    - The files are a map from paths to contents: directories and
      permissions are left out, and opening a path for writing creates or
      truncates the file.
    - Code that touches the file system, spawns a process or logs runs in
      the monad [M]: a state monad over [world] whose result is an exception
      or a value.
    - Libraries the operator calls but does not define (pickle, dill,
      subprocess, the interpreter that runs the generated script) are fields
      of [Platform] and [Interp]; every theorem quantifies over them. *)

From Stdlib Require Import ZArith String Ascii List Lia.
From stdpp Require Import base option gmap strings pretty.

Set Warnings "-register-all".
Local Open Scope string_scope.

(** ** Python builtins on strings *)

Module Py.

(** ["\n"], ["\r"] and the double quote, as one-character strings. *)
Definition LF : ascii := ascii_of_nat 10.
Definition CR : ascii := ascii_of_nat 13.
Definition nl : string := String LF EmptyString.
Definition dq : string := String (ascii_of_nat 34) EmptyString.

(** [str.lower] on the ASCII letters. The other characters are left as
    they are, which changes no answer to [startswith('dill')]: no other
    character below 256 becomes one of d, i or l when lowered. *)
Definition lower_char (c : ascii) : ascii :=
  let n := nat_of_ascii c in
  if (65 <=? n)%nat && (n <=? 90)%nat then ascii_of_nat (n + 32) else c.

Fixpoint lower (s : string) : string :=
  match s with
  | EmptyString => EmptyString
  | String c s' => String (lower_char c) (lower s')
  end.

(** [s.startswith(p)]. *)
Definition startswith (s p : string) : bool := String.prefix p s.

(** [str.isspace] on one character of a Python 3 str, for the code points
    below 256: tab, the line breaks, the four separators 0x1c-0x1f, the
    space, the next-line control 0x85 and the no-break space 0xa0. *)
Definition isspace (c : ascii) : bool :=
  let n := nat_of_ascii c in
  ((9 <=? n)%nat && (n <=? 13)%nat) || ((28 <=? n)%nat && (n <=? 32)%nat)
  || (n =? 133)%nat || (n =? 160)%nat.

(** The same on one byte of a Python 2 str: tab, the line breaks and the
    space. *)
Definition isspace_bytes (c : ascii) : bool :=
  let n := nat_of_ascii c in
  ((9 <=? n)%nat && (n <=? 13)%nat) || (n =? 32)%nat.

(** Every character of [s] is ASCII. *)
Fixpoint is_ascii (s : string) : bool :=
  match s with
  | EmptyString => true
  | String c s' => (nat_of_ascii c <? 128)%nat && is_ascii s'
  end.

(** [s.lstrip()], [s.rstrip()] and [s.strip()], [white] being the white
    space of the kind of string that [s] is. *)
Fixpoint lstrip (white : ascii -> bool) (s : string) : string :=
  match s with
  | EmptyString => EmptyString
  | String c s' => if white c then lstrip white s' else s
  end.

(** [rstrip]: a character is dropped when it is white space and everything
    after it has been dropped. *)
Fixpoint rstrip (white : ascii -> bool) (s : string) : string :=
  match s with
  | EmptyString => EmptyString
  | String c s' =>
      match rstrip white s' with
      | EmptyString => if white c then EmptyString else String c EmptyString
      | r => String c r
      end
  end.

Definition strip (white : ascii -> bool) (s : string) : string :=
  rstrip white (lstrip white s).

(** [sep.join(l)]. *)
Definition join (sep : string) (l : list string) : string := String.concat sep l.

(** [s.split("\n")]: the pieces between line feeds, always at least one. *)
Fixpoint split_lines (s : string) : list string :=
  match s with
  | EmptyString => [EmptyString]
  | String c s' =>
      if Ascii.eqb c LF then EmptyString :: split_lines s'
      else match split_lines s' with
           | [] => [String c EmptyString]
           | l :: ls => String c l :: ls
           end
  end.

(** Universal newlines on input: ["\r\n"] and a lone ["\r"] become ["\n"]. *)
Fixpoint translate_newlines (s : string) : string :=
  match s with
  | EmptyString => EmptyString
  | String c s' =>
      if Ascii.eqb c CR then
        match s' with
        | String c' s'' =>
            if Ascii.eqb c' LF then String LF (translate_newlines s'')
            else String LF (translate_newlines s')
        | EmptyString => String LF EmptyString
        end
      else String c (translate_newlines s')
  end.

(** [list(f)] for a text file whose decoded content is [s]: the lines, each
    with its terminating line feed; a last line without one is kept as it
    is, and nothing follows a final line feed. *)
Fixpoint iter_lines (s : string) : list string :=
  match s with
  | EmptyString => []
  | String c s' =>
      if Ascii.eqb c LF then nl :: iter_lines s'
      else match iter_lines s' with
           | [] => [String c EmptyString]
           | l :: ls => String c l :: ls
           end
  end.

(** [s.endswith("/")]. *)
Fixpoint ends_with_slash (s : string) : bool :=
  match s with
  | EmptyString => false
  | String c EmptyString => Ascii.eqb c "/"
  | String _ s' => ends_with_slash s'
  end.

(** [os.path.join(a, b)] of posixpath, for two components. *)
Definition path_join (a b : string) : string :=
  if startswith b "/" then b
  else if String.eqb a "" || ends_with_slash a then a +:+ b
  else a +:+ "/" +:+ b.

(** [str(n)] for a non-negative integer. *)
Definition str_of_nat (n : nat) : string := pretty n.

(** *** [str.format]

    Replacement fields [{name}] are looked up in [kwargs]; the automatic
    field [{}] is the first positional argument. The templates of this
    file have no escaped braces, no conversions and name only fields that
    the call supplies, so a field that is not found formats as the empty
    string here. *)
Fixpoint assoc (k : string) (kv : list (string * string)) : string :=
  match kv with
  | [] => ""
  | (k', v) :: kv' => if String.eqb k k' then v else assoc k kv'
  end.

Definition field_value (name : string) (args : list string)
    (kwargs : list (string * string)) : string :=
  if String.eqb name "" then hd "" args else assoc name kwargs.

Fixpoint format_from (tpl : string) (field : option string) (args : list string)
    (kwargs : list (string * string)) : string :=
  match tpl with
  | EmptyString => EmptyString
  | String c t =>
      match field with
      | None =>
          if Ascii.eqb c "{" then format_from t (Some "") args kwargs
          else String c (format_from t None args kwargs)
      | Some name =>
          if Ascii.eqb c "}"
          then field_value name args kwargs +:+ format_from t None args kwargs
          else format_from t (Some (name +:+ String c "")) args kwargs
      end
  end.

Definition format (tpl : string) (args : list string) (kwargs : list (string * string)) : string :=
  format_from tpl None args kwargs.

(** *** [textwrap.dedent] *)

Definition is_blank (c : ascii) : bool := Ascii.eqb c " " || Ascii.eqb c "009".

Fixpoint all_blank (s : string) : bool :=
  match s with
  | EmptyString => true
  | String c s' => is_blank c && all_blank s'
  end.

Fixpoint leading_blank (s : string) : string :=
  match s with
  | EmptyString => EmptyString
  | String c s' => if is_blank c then String c (leading_blank s') else EmptyString
  end.

Fixpoint common_prefix (a b : string) : string :=
  match a, b with
  | String x a', String y b' => if Ascii.eqb x y then String x (common_prefix a' b') else EmptyString
  | _, _ => EmptyString
  end.

(** One round of the loop over the indents of the non-blank lines. *)
Definition margin_step (margin : option string) (indent : string) : option string :=
  match margin with
  | None => Some indent
  | Some m =>
      if startswith indent m then Some m
      else if startswith m indent then Some indent
      else Some (common_prefix m indent)
  end.

Fixpoint drop_prefix (p s : string) : string :=
  match p, s with
  | EmptyString, _ => s
  | String x p', String y s' => if Ascii.eqb x y then drop_prefix p' s' else s
  | String _ _, EmptyString => s
  end.

Definition remove_margin (m line : string) : string :=
  if startswith line m then drop_prefix m line else line.

Definition dedent (text : string) : string :=
  let lines := map (fun l => if all_blank l then "" else l) (split_lines text) in
  let indents := map leading_blank (filter (fun l => negb (String.eqb l "")) lines) in
  match fold_left margin_step indents None with
  | Some m => if String.eqb m "" then join nl lines else join nl (map (remove_margin m) lines)
  | None => join nl lines
  end.


End Py.

(** ** Values, callables and exceptions *)

(** The values that cross the process boundary. [VObject] stands for an
    instance of some class, which a codec may or may not accept. *)
Inductive pyval :=
| VNone
| VBool (b : bool)
| VInt (z : Z)
| VStr (s : string)
| VList (l : list pyval)
| VDict (m : gmap string pyval)
| VObject (cls : string) (state : string).

(** A [types.FunctionType] object: what [def] and [lambda] create. The
    source is what [inspect.getsource] finds, if anything. *)
Record py_function := PyFunction {
  __name__ : string;
  fn_source : option string
}.

(** What a caller may pass as [python_callable]. *)
Inductive pyobject :=
| ObjFunction (f : py_function)
| ObjCallable (repr : string)     (* builtin, bound method, class, partial, ... *)
| ObjOther (v : pyval).           (* not callable *)

Definition callable (o : pyobject) : bool :=
  match o with
  | ObjFunction _ | ObjCallable _ => true
  | ObjOther _ => false
  end.

(** [(lambda x: 0).__name__] *)
Definition lambda_name : string := "<lambda>".

(** Exceptions. A builtin exception carries its class and base classes, so
    that an [except] clause can be decided. *)
Inductive exn :=
| AirflowException (args : list string)
| CalledProcessError (returncode : Z) (cmd : list string) (output : string)
| SystemExit (status : Z)          (* sys.exit: the status the process ends with *)
| PyError (mro : list string) (msg : string).

Definition ValueError (msg : string) : exn := PyError ["ValueError"; "Exception"] msg.
Definition IndexError (msg : string) : exn := PyError ["IndexError"; "LookupError"; "Exception"] msg.
Definition KeyError (msg : string) : exn := PyError ["KeyError"; "LookupError"; "Exception"] msg.
Definition TypeError (msg : string) : exn := PyError ["TypeError"; "Exception"] msg.
Definition ImportError (msg : string) : exn := PyError ["ImportError"; "Exception"] msg.
Definition FileNotFoundError (path : string) : exn :=
  PyError ["FileNotFoundError"; "OSError"; "Exception"] path.
Definition SourceNotFound : exn := PyError ["OSError"; "Exception"] "could not get source code".
Definition SyntaxError (msg : string) : exn := PyError ["SyntaxError"; "Exception"] msg.

(** [isinstance(e, ValueError)], as the clause [except ValueError] tests it. *)
Definition is_ValueError (e : exn) : bool :=
  match e with
  | PyError mro _ => existsb (String.eqb "ValueError") mro
  | _ => false
  end.

(** ** The world: files, system calls, log records *)

Inductive event :=
| EMkdtemp (dir : string)
| ERmtree (dir : string)
| ESpawn (cmd : list string)
| EOpen (path : string) (mode : string)
| EWrite (path : string) (data : string)
| EStat (path : string).

Inductive log_arg :=
| LCmd (cmd : list string)
| LText (s : string)
| LValue (v : pyval)
| LNothing.

Record log_record := LogRecord {
  level : string;
  message : string;
  log_argument : log_arg
}.

Record world := World {
  files : gmap string string;
  trace : list event;
  logs : list log_record;
  temp_serial : nat
}.

Definition set_files (f : gmap string string) (w : world) : world :=
  World f (trace w) (logs w) (temp_serial w).
Definition emit (e : event) (w : world) : world :=
  World (files w) (trace w ++ [e])%list (logs w) (temp_serial w).
Definition add_log (r : log_record) (w : world) : world :=
  World (files w) (trace w) (logs w ++ [r])%list (temp_serial w).

(** The monad of effectful code. *)
Definition M (A : Type) : Type := world -> (exn + A) * world.

Definition ret {A} (a : A) : M A := fun w => (inr a, w).
Definition raise {A} (e : exn) : M A := fun w => (inl e, w).
Definition bind {A B} (m : M A) (k : A -> M B) : M B :=
  fun w => match m w with
           | (inr a, w') => k a w'
           | (inl e, w') => (inl e, w')
           end.
Definition lift {A} (r : exn + A) : M A := fun w => (r, w).

Notation "x <- m ;; k" := (bind m (fun x => k))
  (at level 100, m at next level, right associativity).
Notation "m ;;; k" := (bind m (fun _ => k))
  (at level 100, right associativity).

(** [open(path, mode)] for writing: the file is created or truncated. *)
Definition open_w (path mode : string) : M unit :=
  fun w => (inr tt, emit (EOpen path mode) (set_files (<[path := ""]> (files w)) w)).

(** [f.write(data)] on a file opened for writing. *)
Definition write (path data : string) : M unit :=
  fun w => (inr tt,
            emit (EWrite path data)
              (set_files (<[path := default "" (files w !! path) +:+ data]> (files w)) w)).

(** [open(path, mode)] for reading, giving the bytes there are to read. *)
Definition open_r (path mode : string) : M string :=
  fun w => match files w !! path with
           | Some data => (inr data, emit (EOpen path mode) w)
           | None => (inl (FileNotFoundError path), emit (EOpen path mode) w)
           end.

(** [os.stat(path).st_size] *)
Definition stat_size (path : string) : M nat :=
  fun w => match files w !! path with
           | Some data => (inr (String.length data), emit (EStat path) w)
           | None => (inl (FileNotFoundError path), emit (EStat path) w)
           end.

(** [self.log.<level>(message)] *)
Definition log (lvl msg : string) (a : log_arg) : M unit :=
  fun w => (inr tt, add_log (LogRecord lvl msg a) w).

(** ** Libraries and collaborators *)

(** A pickling library: [dump] and [load] on whole file contents. *)
Record Codec := {
  dump : pyval -> exn + string;
  load : string -> exn + pyval
}.

(** The host running the operator.
    [spawn cmd files] is what running [cmd] as a child process does: it
    cannot be started, or it ends with an exit status, its combined output
    and the files as it leaves them. *)
Record Platform := {
  sys_version_major : nat;           (* sys.version_info[0] *)
  pickle : Codec;
  dill : Codec;
  spawn : list string -> gmap string string -> exn + (Z * string * gmap string string)
}.

(** [path] lies in the tree below [dir]. *)
Definition under (dir path : string) : bool := Py.startswith path (dir +:+ "/").

(** [shutil.rmtree(dir)] on the files. *)
Definition rmtree (dir : string) (fs : gmap string string) : gmap string string :=
  filter (fun kv => under dir (fst kv) = false) fs.

(** Modelled from the spec: [airflow.utils.file.TemporaryDirectory], whose
    source is not part of this development. Acquiring gives the path of a new
    directory; the release runs on every way out of the body, deletes the
    directory tree and leaves the body's result or exception as it is. *)
Definition TemporaryDirectory {A} (prefix : string) (body : string -> M A) : M A :=
  fun w =>
    let tmp_dir := "/tmp/" +:+ prefix +:+ Py.str_of_nat (temp_serial w) in
    let w1 := emit (EMkdtemp tmp_dir)
                (World (files w) (trace w) (logs w) (S (temp_serial w))) in
    let '(r, w2) := body tmp_dir w1 in
    (r, emit (ERmtree tmp_dir) (set_files (rmtree tmp_dir (files w2)) w2)).

(** [try: body except ...: handler], the handler deciding by itself whether
    the exception is one of its own (it raises it again when not). *)
Definition try_except {A} (body : M A) (handler : exn -> M A) : M A :=
  fun w => match body w with
           | (inl e, w') => handler e w'
           | (inr a, w') => (inr a, w')
           end.

(** ** class PythonOperator *)

Module PythonOperator.

Record t := {
  python_callable : pyobject;
  op_args : list pyval;
  op_kwargs : gmap string pyval;
  provide_context : bool;
  templates_dict : option (gmap string pyval);
  template_ext : list string
}.

(** [__init__]; the arguments of [BaseOperator.__init__] are left out. *)
Definition __init__ (python_callable : pyobject)
    (op_args : option (list pyval)) (op_kwargs : option (gmap string pyval))
    (provide_context : bool) (templates_dict : option (gmap string pyval))
    (templates_exts : option (list string)) : M t :=
  if negb (callable python_callable) then
    raise (AirflowException ["`python_callable` param must be callable"])
  else
    ret {| python_callable := python_callable;
           op_args := default [] op_args;
           op_kwargs := default ∅ op_kwargs;
           provide_context := provide_context;
           templates_dict := templates_dict;
           template_ext := default [] templates_exts |}.

End PythonOperator.

(** ** class PythonVirtualenvOperator(PythonOperator) *)

Module PythonVirtualenvOperator.

Record t := {
  python_callable : pyobject;
  op_args : list pyval;
  op_kwargs : gmap string pyval;
  provide_context : bool;
  templates_dict : option (gmap string pyval);
  template_ext : list string;
  requirements : list string;
  string_args : list string;
  python_version : option string;
  use_dill : bool;
  system_site_packages : bool
}.

Definition _pass_op_args (self : t) : bool :=
  (0 <? length (op_args self) + size (op_kwargs self))%nat.

Definition dill_message : string :=
  "If using dill, dill must be in the environment " +:+
  "either via system_site_packages or requirements".

Definition cross_version_message : string :=
  "Passing op_args or op_kwargs is not supported across " +:+
  "different Python major versions " +:+
  "for PythonVirtualenvOperator. " +:+
  "Please use string_args.".

(** [s[0]] *)
Definition first_char (s : string) : exn + string :=
  match s with
  | EmptyString => inl (IndexError "string index out of range")
  | String c _ => inr (String c EmptyString)
  end.

Section Host.
Context (P : Platform).

Definition __init__ (python_callable : pyobject)
    (requirements : option (list string))
    (python_version : option string) (use_dill : bool)
    (system_site_packages : bool)
    (op_args : option (list pyval)) (op_kwargs : option (gmap string pyval))
    (string_args : option (list string))
    (templates_dict : option (gmap string pyval))
    (templates_exts : option (list string)) : M t :=
  base <- PythonOperator.__init__ python_callable op_args op_kwargs false
            templates_dict templates_exts ;;
  let self :=
    {| python_callable := PythonOperator.python_callable base;
       op_args := PythonOperator.op_args base;
       op_kwargs := PythonOperator.op_kwargs base;
       provide_context := PythonOperator.provide_context base;
       templates_dict := PythonOperator.templates_dict base;
       template_ext := PythonOperator.template_ext base;
       requirements := default [] requirements;
       string_args := default [] string_args;
       python_version := python_version;
       use_dill := use_dill;
       system_site_packages := system_site_packages |} in
  (* check that dill is present if needed *)
  let dill_in_requirements :=
    map (fun x => Py.startswith (Py.lower x) "dill") (PythonVirtualenvOperator.requirements self) in
  if negb system_site_packages && use_dill && negb (existsb id dill_in_requirements) then
    raise (AirflowException [dill_message])
  else
  (* check that a function is passed, and that it is not a lambda *)
  if match PythonVirtualenvOperator.python_callable self with
     | ObjFunction f => String.eqb (__name__ f) lambda_name
     | _ => true
     end
  then
    raise (AirflowException ["{} only supports functions for python_callable arg";
                             "PythonVirtualenvOperator"])
  else
  (* check that args are passed iff python major version matches *)
  match python_version with
  | None => ret self
  | Some v =>
      major <- lift (first_char v) ;;
      if negb (String.eqb major (Py.str_of_nat (sys_version_major P)))
         && _pass_op_args self
      then raise (AirflowException [cross_version_message])
      else ret self
  end.

(** [subprocess.check_output(cmd, stderr=subprocess.STDOUT, close_fds=True)] *)
Definition check_output (cmd : list string) : M string :=
  fun w =>
    let w' := emit (ESpawn cmd) w in
    match spawn P cmd (files w) with
    | inl e => (inl e, w')
    | inr (code, output, fs) =>
        if (code =? 0)%Z then (inr output, set_files fs w')
        else (inl (CalledProcessError code cmd output), set_files fs w')
    end.

Definition _execute_in_subprocess (self : t) (cmd : list string) : M unit :=
  try_except
    (log "info" ("Executing cmd" +:+ Py.nl +:+ "{}") (LCmd cmd) ;;;
     output <- check_output cmd ;;
     if negb (String.eqb output "")
     then log "info" ("Got output" +:+ Py.nl +:+ "{}") (LText output)
     else ret tt)
    (fun e =>
       match e with
       | CalledProcessError _ _ output =>
           log "info" ("Got error output" +:+ Py.nl +:+ "{}") (LText output) ;;;
           raise e
       | _ => raise e
       end).

(** writes string_args to a file, which are read line by line; [str] is
    the identity on the strings of [string_args]. *)
Definition _write_string_args (self : t) (filename : string) : M unit :=
  open_w filename "w" ;;;
  write filename (Py.join Py.nl (map id (string_args self))).

Definition arg_dict (self : t) : pyval :=
  VDict (<["args" := VList (op_args self)]>
         (<["kwargs" := VDict (op_kwargs self)]> ∅)).

(** serialize args to file *)
Definition _write_args (self : t) (input_filename : string) : M unit :=
  if _pass_op_args self then
    open_w input_filename "wb" ;;;
    data <- lift (if use_dill self then dump (dill P) (arg_dict self)
                  else dump (pickle P) (arg_dict self)) ;;
    write input_filename data
  else ret tt.

Definition deserialize_error_message : string :=
  "Error deserializing result. " +:+
  "Note that result deserialization " +:+
  "is not supported across major Python versions.".

Definition _read_result (self : t) (output_filename : string) : M pyval :=
  size <- stat_size output_filename ;;
  if (size =? 0)%nat then ret VNone
  else
    data <- open_r output_filename "rb" ;;
    try_except
      (if use_dill self then lift (load (dill P) data)
       else lift (load (pickle P) data))
      (fun e =>
         if is_ValueError e then
           log "error" deserialize_error_message LNothing ;;;
           raise e
         else raise e).

Definition _generate_virtualenv_cmd (self : t) (tmp_dir : string) : list string :=
  let cmd := ["virtualenv"; tmp_dir] in
  let cmd := if system_site_packages self then (cmd ++ ["--system-site-packages"])%list else cmd in
  let cmd := match python_version self with
             | Some v => (cmd ++ [Py.format "--python=python{}" [v] []])%list
             | None => cmd
             end in
  cmd.

Definition _generate_pip_install_cmd (self : t) (tmp_dir : string) : list string :=
  if (length (requirements self) =? 0)%nat then []
  else
    (* direct path alleviates need to activate *)
    let cmd := [Py.format "{}/bin/pip" [tmp_dir] []; "install"] in
    (cmd ++ requirements self)%list.

Definition _generate_python_cmd (self : t) (tmp_dir script_filename
    input_filename output_filename string_args_filename : string) : list string :=
  (* direct path alleviates need to activate *)
  [Py.format "{}/bin/python" [tmp_dir] []; script_filename;
   input_filename; output_filename; string_args_filename].


Definition load_line_template : string :=
  "with open(sys.argv[1], " +:+ Py.dq +:+ "rb" +:+ Py.dq +:+ ") as f: arg_dict = {}.load(f)".

Definition empty_args_line : string :=
  "arg_dict = {" +:+ Py.dq +:+ "args" +:+ Py.dq +:+ ": [], "
    +:+ Py.dq +:+ "kwargs" +:+ Py.dq +:+ ": {}}".

Definition pickling_library (self : t) : string :=
  if use_dill self then "dill" else "pickle".

(** dont try to read pickle if we didnt pass anything *)
Definition load_args_line (self : t) : string :=
  if _pass_op_args self then Py.format load_line_template [pickling_library self] []
  else empty_args_line.

(** The text between the triple quotes, the first line break escaped. *)
Definition script_template : string :=
  Py.join Py.nl
    [ "        import {pickling_library}";
      "        import sys";
      "        {load_args_code}";
      "        args = arg_dict[" +:+ Py.dq +:+ "args" +:+ Py.dq +:+ "]";
      "        kwargs = arg_dict[" +:+ Py.dq +:+ "kwargs" +:+ Py.dq +:+ "]";
      "        with open(sys.argv[3], 'r') as f:";
      "            virtualenv_string_args = list(map(lambda x: x.strip(), list(f)))";
      "        {python_callable_lines}";
      "        res = {python_callable_name}(" +:+ "*args, **kwargs)";
      "        with open(sys.argv[2], 'wb') as f:";
      "            res is not None and {pickling_library}.dump(res, f)";
      "        " ].

(** [inspect.getsource(fn)] and [fn.__name__]; an object that is not a
    function has neither here (no operator that [__init__] returned
    holds one). *)
Definition getsource (fn : pyobject) : exn + string :=
  match fn with
  | ObjFunction f =>
      match fn_source f with
      | Some src => inr src
      | None => inl SourceNotFound
      end
  | _ => inl (TypeError "not a module, class, method, function, traceback, frame, or code object")
  end.

Definition name_of (fn : pyobject) : exn + string :=
  match fn with
  | ObjFunction f => inr (__name__ f)
  | _ => inl (PyError ["AttributeError"; "Exception"] "__name__")
  end.

Definition _generate_python_code (self : t) : exn + string :=
  let fn := python_callable self in
  let load_args_line := load_args_line self in
  (* no indents in original code so we can accept
     any type of indents in the original function
     we deserialize args, call function, serialize result if necessary *)
  match getsource fn with
  | inl e => inl e
  | inr src =>
      match name_of fn with
      | inl e => inl e
      | inr name =>
          inr (Py.format (Py.dedent script_template) []
                 [ ("load_args_code", load_args_line);
                   ("python_callable_lines", Py.dedent src);
                   ("python_callable_name", name);
                   ("pickling_library", pickling_library self) ])
      end
  end.

Definition _write_script (self : t) (script_filename : string) : M unit :=
  open_w script_filename "w" ;;;
  python_code <- lift (_generate_python_code self) ;;
  log "debug" ("Writing code to file" +:+ Py.nl +:+ "{}") (LText python_code) ;;;
  write script_filename python_code.

(** [if self.templates_dict: self.op_kwargs['templates_dict'] = self.templates_dict];
    the assignment into the dict that [self] holds gives the operator the
    rest of the method works on. *)
Definition merge_templates_dict (self : t) : t :=
  match templates_dict self with
  | Some td =>
      if (0 <? size td)%nat then
        {| python_callable := python_callable self;
           op_args := op_args self;
           op_kwargs := <["templates_dict" := VDict td]> (op_kwargs self);
           provide_context := provide_context self;
           templates_dict := templates_dict self;
           template_ext := template_ext self;
           requirements := requirements self;
           string_args := string_args self;
           python_version := python_version self;
           use_dill := use_dill self;
           system_site_packages := system_site_packages self |}
      else self
  | None => self
  end.

Definition execute_callable (self : t) : M pyval :=
  TemporaryDirectory "venv" (fun tmp_dir =>
    let self := merge_templates_dict self in
    (* generate filenames *)
    let input_filename := Py.path_join tmp_dir "script.in" in
    let output_filename := Py.path_join tmp_dir "script.out" in
    let string_args_filename := Py.path_join tmp_dir "string_args.txt" in
    let script_filename := Py.path_join tmp_dir "script.py" in

    (* set up virtualenv *)
    _execute_in_subprocess self (_generate_virtualenv_cmd self tmp_dir) ;;;
    let cmd := _generate_pip_install_cmd self tmp_dir in
    (match cmd with
     | _ :: _ => _execute_in_subprocess self cmd
     | [] => ret tt
     end) ;;;

    _write_args self input_filename ;;;
    _write_script self script_filename ;;;
    _write_string_args self string_args_filename ;;;

    (* execute command in virtualenv *)
    _execute_in_subprocess self
      (_generate_python_cmd self tmp_dir
                            script_filename
                            input_filename
                            output_filename
                            string_args_filename) ;;;
    _read_result self output_filename).

End Host.

End PythonVirtualenvOperator.

(** ** The synthesized program

    What the text of [_generate_python_code] does when an interpreter runs
    it, one definition per line of the template. The interpreter is the one
    of the new environment, not the caller's: its modules, its way of
    reading text files and its evaluation of the inlined source are the
    fields of [Interp]. *)

Record Interp := {
  version_major : nat;                (* sys.version_info[0] *)
  compiles : string -> bool;          (* the text of a script compiles *)
  can_import : string -> bool;
  module_codec : string -> Codec;     (* the imported [pickle] or [dill] *)
  universal_newlines : bool;          (* text mode translates line ends *)
  (** defining the inlined source and calling the function it names on the
      unpacked arguments, the global [virtualenv_string_args] in place: the
      function returns or raises (SystemExit when it ends the process), and
      may change files on its way *)
  call_source : string -> string -> list pyval -> gmap string pyval -> list string -> M pyval
}.

Module Script.
Import PythonVirtualenvOperator.

Section Child.
Context (I : Interp).

(** [sys.argv[i]] *)
Definition argv_at (argv : list string) (i : nat) : exn + string :=
  match nth_error argv i with
  | Some a => inr a
  | None => inl (IndexError "list index out of range")
  end.

(** [import <name>] *)
Definition import (name : string) : M unit :=
  if can_import I name then ret tt
  else raise (ImportError ("No module named " +:+ name)).

(** [d[key]] on a loaded value *)
Definition getitem (d : pyval) (key : string) : exn + pyval :=
  match d with
  | VDict m =>
      match m !! key with
      | Some v => inr v
      | None => inl (KeyError key)
      end
  | _ => inl (TypeError "object is not subscriptable")
  end.

(** [*args] and [**kwargs] at the call *)
Definition star (args : pyval) : exn + list pyval :=
  match args with
  | VList l => inr l
  | _ => inl (TypeError "argument after * must be an iterable")
  end.

Definition star_star (kwargs : pyval) : exn + gmap string pyval :=
  match kwargs with
  | VDict m => inr m
  | _ => inl (TypeError "argument after ** must be a mapping")
  end.

(** the text a file opened with mode 'r' gives, for a content that the
    encoding of the environment reads one character for one byte, as every
    encoding that extends ASCII reads ASCII content *)
Definition decode_text (raw : string) : string :=
  if universal_newlines I then Py.translate_newlines raw else raw.

(** white space for the [strip] of a line read in text mode: the line is
    a str in Python 3 and a byte string in Python 2 *)
Definition isspace (c : ascii) : bool :=
  if (3 <=? version_major I)%nat then Py.isspace c else Py.isspace_bytes c.

(** [list(map(lambda x: x.strip(), list(f)))] *)
Definition read_string_args (raw : string) : list string :=
  map (Py.strip isspace) (Py.iter_lines (decode_text raw)).

(** the line [{load_args_code}] *)
Definition load_args_code (self : t) (argv : list string) : M pyval :=
  if _pass_op_args self then
    path <- lift (argv_at argv 1) ;;
    data <- open_r path "rb" ;;
    lift (load (module_codec I (pickling_library self)) data)
  else
    ret (VDict (<["args" := VList []]> (<["kwargs" := VDict ∅]> ∅))).

(** the lines up to and including [res = name(...)] *)
Definition compute (self : t) (src name : string) (argv : list string) : M pyval :=
  import (pickling_library self) ;;;
  import "sys" ;;;
  arg_dict <- load_args_code self argv ;;
  args <- lift (getitem arg_dict "args") ;;
  kwargs <- lift (getitem arg_dict "kwargs") ;;
  string_args_path <- lift (argv_at argv 3) ;;
  raw <- open_r string_args_path "r" ;;
  let virtualenv_string_args := read_string_args raw in
  positional <- lift (star args) ;;
  keywords <- lift (star_star kwargs) ;;
  call_source I src name positional keywords virtualenv_string_args.

(** the last two lines: the output file is opened for writing, and the
    result is dumped into it when it is not [None] *)
Definition store (self : t) (argv : list string) (res : pyval) : M unit :=
  output_path <- lift (argv_at argv 2) ;;
  open_w output_path "wb" ;;;
  match res with
  | VNone => ret tt
  | _ =>
      data <- lift (dump (module_codec I (pickling_library self)) res) ;;
      write output_path data
  end.

Definition main (self : t) (src name : string) (argv : list string) : M unit :=
  res <- compute self src name argv ;;
  store self argv res.

(** Running the program that [self] generates: the interpreter compiles
    the whole text before it runs the first line, and ends with a
    SyntaxError when the text, with the source of the function inlined, does
    not compile. Nothing runs when no text could be generated. *)
Definition run (self : t) (argv : list string) : M unit :=
  match _generate_python_code self,
        getsource (python_callable self), name_of (python_callable self) with
  | inr code, inr src, inr name =>
      if compiles I code then main self (Py.dedent src) name argv
      else raise (SyntaxError "invalid syntax")
  | inl e, _, _ => raise e
  | _, inl e, _ => raise e
  | _, _, inl e => raise e
  end.

End Child.
End Script.

(** ** A fragment of pickle

    The instances of [Codec] used in the examples: pickle's protocols 2 and 3
    on [None], the booleans, the integers 0..255, short strings and the empty
    list, with the opcodes and exceptions of the real format. A value
    outside the fragment is refused by [dumps]; [loads] stops with pickle's
    own errors on bytes it does not know. *)

Module Pickle.

Definition byte (n : nat) : string := String (ascii_of_nat n) EmptyString.

Definition PROTO : ascii := ascii_of_nat 128.
Definition STOP : ascii := ".".
Definition NONE : ascii := "N".
Definition NEWTRUE : ascii := ascii_of_nat 136.
Definition NEWFALSE : ascii := ascii_of_nat 137.
Definition BININT1 : ascii := "K".
Definition BINUNICODE : ascii := "X".
Definition EMPTY_LIST : ascii := "]".
Definition BINPUT : ascii := "q".

Definition PicklingError (msg : string) : exn :=
  PyError ["PicklingError"; "PickleError"; "Exception"] msg.
Definition UnpicklingError (msg : string) : exn :=
  PyError ["UnpicklingError"; "PickleError"; "Exception"] msg.
Definition EOFError (msg : string) : exn := PyError ["EOFError"; "Exception"] msg.

(** the body of a pickle: the opcodes that leave [v] on the stack *)
Definition save (v : pyval) : exn + string :=
  match v with
  | VNone => inr (String NONE "")
  | VBool true => inr (String NEWTRUE "")
  | VBool false => inr (String NEWFALSE "")
  | VInt z =>
      if ((0 <=? z) && (z <? 256))%Z then inr (String BININT1 (byte (Z.to_nat z)))
      else inl (PicklingError "integer outside the fragment")
  | VStr s =>
      if (String.length s <? 256)%nat then
        inr (String BINUNICODE (byte (String.length s) +:+ byte 0 +:+ byte 0 +:+ byte 0)
               +:+ s +:+ String BINPUT (byte 0))
      else inl (PicklingError "string outside the fragment")
  | VList [] => inr (String EMPTY_LIST (String BINPUT (byte 0)))
  | _ => inl (PicklingError "value outside the fragment")
  end.

Definition dumps (protocol : nat) (v : pyval) : exn + string :=
  match save v with
  | inr body => inr (String PROTO (byte protocol) +:+ body +:+ String STOP "")
  | inl e => inl e
  end.

(** what the unpickler expects next *)
Inductive expecting :=
| Opcode
| ProtoArg
| Int1Arg
| PutArg
| LenArg (index : nat) (so_far : nat)
| Chars (todo : nat) (so_far : string).

Fixpoint unpickle (highest : nat) (data : string) (m : expecting) (stack : list pyval)
    : exn + pyval :=
  match data with
  | EmptyString => inl (EOFError "Ran out of input")
  | String c rest =>
      match m with
      | Opcode =>
          if Ascii.eqb c STOP then
            match stack with
            | v :: _ => inr v
            | [] => inl (UnpicklingError "unpickling stack underflow")
            end
          else if Ascii.eqb c PROTO then unpickle highest rest ProtoArg stack
          else if Ascii.eqb c NONE then unpickle highest rest Opcode (VNone :: stack)
          else if Ascii.eqb c NEWTRUE then unpickle highest rest Opcode (VBool true :: stack)
          else if Ascii.eqb c NEWFALSE then unpickle highest rest Opcode (VBool false :: stack)
          else if Ascii.eqb c BININT1 then unpickle highest rest Int1Arg stack
          else if Ascii.eqb c BINUNICODE then unpickle highest rest (LenArg 0 0) stack
          else if Ascii.eqb c EMPTY_LIST then unpickle highest rest Opcode (VList [] :: stack)
          else if Ascii.eqb c BINPUT then unpickle highest rest PutArg stack
          else inl (UnpicklingError "invalid load key")
      | ProtoArg =>
          if (nat_of_ascii c <=? highest)%nat then unpickle highest rest Opcode stack
          else inl (ValueError "unsupported pickle protocol")
      | Int1Arg => unpickle highest rest Opcode (VInt (Z.of_nat (nat_of_ascii c)) :: stack)
      | PutArg => unpickle highest rest Opcode stack
      | LenArg i n =>
          let n' := (n + nat_of_ascii c * 256 ^ i)%nat in
          if (i <? 3)%nat then unpickle highest rest (LenArg (S i) n') stack
          else match n' with
               | O => unpickle highest rest Opcode (VStr "" :: stack)
               | S k => unpickle highest rest (Chars n' "") stack
               end
      | Chars todo s =>
          match todo with
          | S O | O => unpickle highest rest Opcode (VStr (s +:+ String c "") :: stack)
          | S k => unpickle highest rest (Chars k (s +:+ String c "")) stack
          end
      end
  end.

Definition loads (highest : nat) (data : string) : exn + pyval :=
  unpickle highest data Opcode [].

(** [pickle] as an interpreter knows it: it writes its default protocol
    and reads up to its highest one. *)
Definition codec (default_protocol highest_protocol : nat) : Codec :=
  {| dump := dumps default_protocol; load := loads highest_protocol |}.

Definition python2 : Codec := codec 2 2.
Definition python3 : Codec := codec 3 4.

End Pickle.

(** ** Hosts and interpreters for the examples *)

Module Demo.

(** A host on Python 3 where every command ends with status 0, silently,
    leaving the files as they are. *)
Definition host : Platform :=
  {| sys_version_major := 3;
     pickle := Pickle.python3;
     dill := Pickle.python3;
     spawn := fun _ fs => inr (0%Z, "", fs) |}.

(** The interpreter of a Python 3 environment that knows three functions:
    [zero] returns 0, [noop] returns nothing, [count] returns the number
    of string arguments it finds in the global. *)
Definition python3 : Interp :=
  {| version_major := 3;
     compiles := fun _ => true;
     can_import := fun _ => true;
     module_codec := fun _ => Pickle.python3;
     universal_newlines := true;
     call_source := fun _ name _ _ string_args =>
       if String.eqb name "zero" then ret (VInt 0)
       else if String.eqb name "noop" then ret VNone
       else if String.eqb name "count" then ret (VInt (Z.of_nat (length string_args)))
       else raise (PyError ["NameError"; "Exception"] name) |}.

Definition empty_world : world := World ∅ [] [] 0.

Definition def_zero : pyobject :=
  ObjFunction (PyFunction "zero" (Some ("def zero():" +:+ Py.nl +:+ "    return 0" +:+ Py.nl))).

Definition a_lambda : pyobject :=
  ObjFunction (PyFunction lambda_name (Some ("f = lambda x: 0" +:+ Py.nl))).

End Demo.

(** ** Specification-side predicates *)

(** [python_callable] is a function made by [def]. *)
Definition plain_function (o : pyobject) : bool :=
  match o with
  | ObjFunction f => negb (String.eqb (__name__ f) lambda_name)
  | _ => false
  end.

(** Some entry of [requirements] starts with "dill", letter case aside. *)
Definition lists_dill (requirements : option (list string)) : bool :=
  existsb (fun x => Py.startswith (Py.lower x) "dill") (default [] requirements).

(** The dill requirement is violated: dill asked for, system packages left
    out, dill not listed. *)
Definition dill_missing (use_dill system_site_packages : bool)
    (requirements : option (list string)) : bool :=
  use_dill && negb system_site_packages && negb (lists_dill requirements).

(** Positional or keyword arguments are given. *)
Definition has_arguments (op_args : option (list pyval))
    (op_kwargs : option (gmap string pyval)) : bool :=
  (0 <? length (default [] op_args) + size (default ∅ op_kwargs))%nat.

(** The major version named by [python_version] is not the caller's. *)
Definition other_major (P : Platform) (python_version : string) : bool :=
  match python_version with
  | EmptyString => false
  | String c _ => negb (String.eqb (String c "") (Py.str_of_nat (sys_version_major P)))
  end.

(** The operator that a successful construction returns. *)
Definition constructed (python_callable : pyobject) (requirements : option (list string))
    (python_version : option string) (use_dill system_site_packages : bool)
    (op_args : option (list pyval)) (op_kwargs : option (gmap string pyval))
    (string_args : option (list string)) (templates_dict : option (gmap string pyval))
    (templates_exts : option (list string)) : PythonVirtualenvOperator.t :=
  {| PythonVirtualenvOperator.python_callable := python_callable;
     PythonVirtualenvOperator.op_args := default [] op_args;
     PythonVirtualenvOperator.op_kwargs := default ∅ op_kwargs;
     PythonVirtualenvOperator.provide_context := false;
     PythonVirtualenvOperator.templates_dict := templates_dict;
     PythonVirtualenvOperator.template_ext := default [] templates_exts;
     PythonVirtualenvOperator.requirements := default [] requirements;
     PythonVirtualenvOperator.string_args := default [] string_args;
     PythonVirtualenvOperator.python_version := python_version;
     PythonVirtualenvOperator.use_dill := use_dill;
     PythonVirtualenvOperator.system_site_packages := system_site_packages |}.

(** [c] occurs in [s]. *)
Fixpoint contains (c : ascii) (s : string) : bool :=
  match s with
  | EmptyString => false
  | String x s' => Ascii.eqb x c || contains c s'
  end.

(** No line feed and no carriage return in [s]. *)
Definition one_line (s : string) : bool :=
  negb (contains Py.LF s) && negb (contains Py.CR s).

(** The last character of [s] is white space. *)
Fixpoint ends_with_space (white : ascii -> bool) (s : string) : bool :=
  match s with
  | EmptyString => false
  | String c s' =>
      match s' with
      | EmptyString => white c
      | String _ _ => ends_with_space white s'
      end
  end.

(** The first character of [s] is white space. *)
Definition starts_with_space (white : ascii -> bool) (s : string) : bool :=
  match s with
  | EmptyString => false
  | String c _ => white c
  end.

(** A string that the string-args file carries unchanged to the
    interpreter [I] when it is not the last one: ASCII, one line, and no
    white space at either end, white space being what [strip] removes
    in [I]. *)
Definition plain_argument (I : Interp) (s : string) : bool :=
  Py.is_ascii s && one_line s
  && negb (starts_with_space (Script.isspace I) s)
  && negb (ends_with_space (Script.isspace I) s).

(** A string that the string-args file carries to every interpreter, up
    to the white space at its ends: ASCII and one line. *)
Definition line_argument (s : string) : bool := Py.is_ascii s && one_line s.

(** The text of the program, line by line, for a library name, a line that
    loads the arguments, the lines of the function and its name. *)
Definition program_text (lib load lines name : string) : string :=
  "import " +:+ lib +:+ Py.nl +:+
  "import sys" +:+ Py.nl +:+
  load +:+ Py.nl +:+
  "args = arg_dict[" +:+ Py.dq +:+ "args" +:+ Py.dq +:+ "]" +:+ Py.nl +:+
  "kwargs = arg_dict[" +:+ Py.dq +:+ "kwargs" +:+ Py.dq +:+ "]" +:+ Py.nl +:+
  "with open(sys.argv[3], 'r') as f:" +:+ Py.nl +:+
  "    virtualenv_string_args = list(map(lambda x: x.strip(), list(f)))" +:+ Py.nl +:+
  lines +:+ Py.nl +:+
  "res = " +:+ name +:+ "(" +:+ "*args, **kwargs)" +:+ Py.nl +:+
  "with open(sys.argv[2], 'wb') as f:" +:+ Py.nl +:+
  "    res is not None and " +:+ lib +:+ ".dump(res, f)" +:+ Py.nl.

(** The line that loads the arguments from the file named by the first
    argument of the program. *)
Definition load_line (lib : string) : string :=
  "with open(sys.argv[1], " +:+ Py.dq +:+ "rb" +:+ Py.dq +:+ ") as f: arg_dict = "
    +:+ lib +:+ ".load(f)".


(** The log record of a failed deserialization. *)
Definition deserialize_diagnostic : log_record :=
  LogRecord "error" PythonVirtualenvOperator.deserialize_error_message LNothing.

(** An event without the data it carries. *)
Definition shape (e : event) : event :=
  match e with
  | EWrite path _ => EWrite path ""
  | _ => e
  end.

(** The four files of a workspace. *)
Definition input_file (tmp_dir : string) : string := Py.path_join tmp_dir "script.in".
Definition output_file (tmp_dir : string) : string := Py.path_join tmp_dir "script.out".
Definition string_args_file (tmp_dir : string) : string := Py.path_join tmp_dir "string_args.txt".
Definition script_file (tmp_dir : string) : string := Py.path_join tmp_dir "script.py".

(** The steps between the creation of the workspace and its release, up to
    the size query on the output file, for the operator as it is once
    [templates_dict] has been merged into its keyword arguments. *)
Definition steps (self : PythonVirtualenvOperator.t) (tmp_dir : string) : list event :=
  let self := PythonVirtualenvOperator.merge_templates_dict self in
  ([ESpawn (PythonVirtualenvOperator._generate_virtualenv_cmd self tmp_dir)]
   ++ match PythonVirtualenvOperator.requirements self with
      | [] => []
      | _ :: _ => [ESpawn (PythonVirtualenvOperator._generate_pip_install_cmd self tmp_dir)]
      end
   ++ (if PythonVirtualenvOperator._pass_op_args self
       then [EOpen (input_file tmp_dir) "wb"; EWrite (input_file tmp_dir) ""]
       else [])
   ++ [EOpen (script_file tmp_dir) "w"; EWrite (script_file tmp_dir) "";
       EOpen (string_args_file tmp_dir) "w"; EWrite (string_args_file tmp_dir) "";
       ESpawn (PythonVirtualenvOperator._generate_python_cmd self tmp_dir
                 (script_file tmp_dir) (input_file tmp_dir)
                 (output_file tmp_dir) (string_args_file tmp_dir));
       EStat (output_file tmp_dir)])%list.

(** [m] extends the trace, from any world, by events whose shapes are one of
    the lists [oks] when it returns and the beginning of one of them when it
    raises. *)
Definition runs {A} (m : M A) (oks : list (list event)) : Prop :=
  forall w, exists body,
    trace (snd (m w)) = (trace w ++ body)%list
    /\ match fst (m w) with
       | inr _ => In (map shape body) oks
       | inl _ => exists full, In full oks /\ map shape body `prefix_of` full
       end.

(** What [execute_callable] runs inside the workspace. *)
Definition in_workspace (P : Platform) (self : PythonVirtualenvOperator.t)
    (tmp_dir : string) : M pyval :=
  let self := PythonVirtualenvOperator.merge_templates_dict self in
  PythonVirtualenvOperator._execute_in_subprocess P self
    (PythonVirtualenvOperator._generate_virtualenv_cmd self tmp_dir) ;;;
  (match PythonVirtualenvOperator._generate_pip_install_cmd self tmp_dir with
   | _ :: _ =>
       PythonVirtualenvOperator._execute_in_subprocess P self
         (PythonVirtualenvOperator._generate_pip_install_cmd self tmp_dir)
   | [] => ret tt
   end) ;;;
  PythonVirtualenvOperator._write_args P self (input_file tmp_dir) ;;;
  PythonVirtualenvOperator._write_script self (script_file tmp_dir) ;;;
  PythonVirtualenvOperator._write_string_args self (string_args_file tmp_dir) ;;;
  PythonVirtualenvOperator._execute_in_subprocess P self
    (PythonVirtualenvOperator._generate_python_cmd self tmp_dir
       (script_file tmp_dir) (input_file tmp_dir)
       (output_file tmp_dir) (string_args_file tmp_dir)) ;;;
  PythonVirtualenvOperator._read_result P self (output_file tmp_dir).

(** The steps of an invocation inside the workspace, before the result is
    read: the two commands that set the environment up (the second is no
    command at all without requirements), the three files, and the
    program. *)
Definition actions (P : Platform) (self : PythonVirtualenvOperator.t)
    (tmp_dir : string) : list (M unit) :=
  let self := PythonVirtualenvOperator.merge_templates_dict self in
  [ PythonVirtualenvOperator._execute_in_subprocess P self
      (PythonVirtualenvOperator._generate_virtualenv_cmd self tmp_dir);
    match PythonVirtualenvOperator._generate_pip_install_cmd self tmp_dir with
    | _ :: _ =>
        PythonVirtualenvOperator._execute_in_subprocess P self
          (PythonVirtualenvOperator._generate_pip_install_cmd self tmp_dir)
    | [] => ret tt
    end;
    PythonVirtualenvOperator._write_args P self (input_file tmp_dir);
    PythonVirtualenvOperator._write_script self (script_file tmp_dir);
    PythonVirtualenvOperator._write_string_args self (string_args_file tmp_dir);
    PythonVirtualenvOperator._execute_in_subprocess P self
      (PythonVirtualenvOperator._generate_python_cmd self tmp_dir
         (script_file tmp_dir) (input_file tmp_dir)
         (output_file tmp_dir) (string_args_file tmp_dir)) ].

(** Doing the steps one after the other from [w], each once, and stopping
    at the first that raises: the exception of that step, if any, and the
    world as the last step that ran left it. *)
Fixpoint in_order (steps : list (M unit)) (w : world) : option exn * world :=
  match steps with
  | [] => (None, w)
  | step :: rest =>
      match step w with
      | (inl e, w') => (Some e, w')
      | (inr _, w') => in_order rest w'
      end
  end.

(** The world once the workspace [tmp_dir] has been created, and once it
    has been released. *)
Definition created (tmp_dir : string) (w : world) : world :=
  emit (EMkdtemp tmp_dir) (World (files w) (trace w) (logs w) (S (temp_serial w))).

Definition released (tmp_dir : string) (w : world) : world :=
  emit (ERmtree tmp_dir) (set_files (rmtree tmp_dir (files w)) w).

(** [m] only adds events to the trace. *)
Definition appends {A} (m : M A) : Prop :=
  forall w, exists body, trace (snd (m w)) = (trace w ++ body)%list.

Definition is_spawn (e : event) : bool :=
  match e with
  | ESpawn _ => true
  | _ => false
  end.

(** An operator for [zero] without arguments, and a world where the
    output file holds [content]. *)
Definition zero_operator : PythonVirtualenvOperator.t :=
  constructed Demo.def_zero None None false true None None None None None.

Definition with_output (content : string) : world :=
  World {["/tmp/venv0/script.out" := content]} [] [] 1.

(** ** Log records and processes *)

(** The records that [_execute_in_subprocess] and [_write_script] log. *)
Definition log_executing (cmd : list string) : log_record :=
  LogRecord "info" ("Executing cmd" +:+ Py.nl +:+ "{}") (LCmd cmd).
Definition log_output (output : string) : log_record :=
  LogRecord "info" ("Got output" +:+ Py.nl +:+ "{}") (LText output).
Definition log_error_output (output : string) : log_record :=
  LogRecord "info" ("Got error output" +:+ Py.nl +:+ "{}") (LText output).
Definition log_writing_code (code : string) : log_record :=
  LogRecord "debug" ("Writing code to file" +:+ Py.nl +:+ "{}") (LText code).

(** The directory that [TemporaryDirectory] gives from the world [w]. *)
Definition workspace_of (w : world) : string :=
  "/tmp/" +:+ "venv" +:+ Py.str_of_nat (temp_serial w).



(** [m] leaves the file at [path] as it is, present or absent. *)
Definition keeps {A} (path : string) (m : M A) : Prop :=
  forall w, files (snd (m w)) !! path = files w !! path.

(** ** The operators that run in the scheduler's process

    [PythonOperator.execute] and [execute_callable], and the [execute] of
    [BranchPythonOperator] and [ShortCircuitOperator]. The objects of
    [airflow.models] that a context holds (tasks, the DAG, the DAG run, the
    task instance) are values of the types of [Objects]; what the code asks
    of them, with [SkipMixin.skip] and the call of [python_callable], are
    the fields of [Collaborators]. A log record about a list of tasks
    holds their ids, in place of the task objects that the code hands to
    the logger. *)

Record Objects := {
  task : Type;
  dag : Type;
  dag_run : Type;
  task_instance : Type;
  timestamp : Type
}.

(** What a context, or the keyword arguments of a running operator, hold
    under a key. *)
Inductive entry (O : Objects) :=
| Value (v : pyval)
| TaskObject (t : task O)
| DagObject (d : dag O)
| DagRunObject (r : dag_run O)
| TaskInstanceObject (ti : task_instance O).

Arguments Value {O}.
Arguments TaskObject {O}.
Arguments DagObject {O}.
Arguments DagRunObject {O}.
Arguments TaskInstanceObject {O}.

Record Collaborators (O : Objects) := {
  task_id : task O -> string;                                  (* t.task_id *)
  downstream_list : task O -> list (task O);                   (* t.downstream_list *)
  get_flat_relatives : task O -> bool -> list (task O);        (* t.get_flat_relatives(upstream) *)
  get_task : dag O -> pyval -> exn + task O;                   (* dag.get_task(task_id) *)
  execution_date : task_instance O -> timestamp O;             (* ti.execution_date *)
  task_equals : task O -> string -> bool;                      (* a task == a str *)
  object_truth : string -> string -> bool;                     (* bool(obj) of an instance *)
  skip : entry O -> timestamp O -> list (task O) -> M unit;    (* SkipMixin.skip *)
  (** the call of [python_callable] on the unpacked arguments, in this process *)
  call : pyobject -> list pyval -> gmap string (entry O) -> M pyval
}.

Arguments task_id {O}.
Arguments downstream_list {O}.
Arguments get_flat_relatives {O}.
Arguments get_task {O}.
Arguments execution_date {O}.
Arguments task_equals {O}.
Arguments object_truth {O}.
Arguments skip {O}.
Arguments call {O}.

Definition AttributeError (name : string) : exn :=
  PyError ["AttributeError"; "Exception"] name.

(** The truth value of a result, as [if condition:] takes it. *)
Definition truthy {O} (C : Collaborators O) (v : pyval) : bool :=
  match v with
  | VNone => false
  | VBool b => b
  | VInt z => negb (z =? 0)%Z
  | VStr s => negb (String.eqb s "")
  | VList l => match l with [] => false | _ :: _ => true end
  | VDict m => negb (bool_decide (m = ∅))
  | VObject cls state => object_truth C cls state
  end.

(** [s != v] for a str [s]: only a str is equal to a str (an instance of a
    class is taken to compare by identity). *)
Definition str_ne (s : string) (v : pyval) : bool :=
  match v with
  | VStr s' => negb (String.eqb s s')
  | _ => true
  end.

(** [s in tasks] *)
Definition str_in_tasks {O} (C : Collaborators O) (s : string) (tasks : list (task O)) : bool :=
  existsb (fun t => task_equals C t s) tasks.

(** [context[key].<attribute>] for an attribute that tasks, DAGs or task
    instances have. *)
Definition the_task {O} (context : gmap string (entry O)) (key : string) : exn + task O :=
  match context !! key with
  | None => inl (KeyError key)
  | Some (TaskObject t) => inr t
  | Some _ => inl (AttributeError "downstream_list")
  end.

Definition the_dag {O} (context : gmap string (entry O)) (key : string) : exn + dag O :=
  match context !! key with
  | None => inl (KeyError key)
  | Some (DagObject d) => inr d
  | Some _ => inl (AttributeError "get_task")
  end.

Definition the_task_instance {O} (context : gmap string (entry O)) (key : string)
    : exn + task_instance O :=
  match context !! key with
  | None => inl (KeyError key)
  | Some (TaskInstanceObject ti) => inr ti
  | Some _ => inl (AttributeError "execution_date")
  end.

(** [context[key]] *)
Definition item {O} (context : gmap string (entry O)) (key : string) : exn + entry O :=
  match context !! key with
  | None => inl (KeyError key)
  | Some e => inr e
  end.

Module Running.

(** A [PythonOperator] while it runs: [execute] may put a context in the
    place of its keyword arguments. *)
Record t (O : Objects) := {
  python_callable : pyobject;
  op_args : list pyval;
  op_kwargs : gmap string (entry O);
  provide_context : bool;
  templates_dict : option (gmap string pyval)
}.

Arguments python_callable {O}.
Arguments op_args {O}.
Arguments op_kwargs {O}.
Arguments provide_context {O}.
Arguments templates_dict {O}.

(** The operator as [__init__] left it. *)
Definition of_operator {O} (self : PythonOperator.t) : t O :=
  {| python_callable := PythonOperator.python_callable self;
     op_args := PythonOperator.op_args self;
     op_kwargs := Value <$> PythonOperator.op_kwargs self;
     provide_context := PythonOperator.provide_context self;
     templates_dict := PythonOperator.templates_dict self |}.

Definition set_op_kwargs {O} (self : t O) (kwargs : gmap string (entry O)) : t O :=
  {| python_callable := python_callable self;
     op_args := op_args self;
     op_kwargs := kwargs;
     provide_context := provide_context self;
     templates_dict := templates_dict self |}.

(** [self.templates_dict] as a value *)
Definition templates_value {O} (self : t O) : entry O :=
  match templates_dict self with
  | Some td => Value (VDict td)
  | None => Value VNone
  end.

Section Methods.
Context {O : Objects} (C : Collaborators O).

(** [PythonOperator.execute_callable] *)
Definition execute_callable (self : t O) : M pyval :=
  call C (python_callable self) (op_args self) (op_kwargs self).

(** [PythonOperator.execute]. The context is a dict that the caller holds
    too: the result comes with the operator and the context as the method
    leaves them. *)
Definition execute (self : t O) (context : gmap string (entry O))
    : M (pyval * (t O * gmap string (entry O))) :=
  let '(self, context) :=
    if provide_context self then
      let context := op_kwargs self ∪ context in
      let context := <["templates_dict" := templates_value self]> context in
      (set_op_kwargs self context, context)
    else (self, context) in
  return_value <- execute_callable self ;;
  log "info" "Done. Returned value was: %s" (LValue return_value) ;;;
  ret (return_value, (self, context)).

End Methods.
End Running.

Module BranchPythonOperator.
Section Methods.
Context {O : Objects} (C : Collaborators O).

Definition execute (self : Running.t O) (context : gmap string (entry O)) : M pyval :=
  r <- Running.execute C self context ;;
  let '(branch, (self, context)) := r in
  log "info" "Following branch %s" (LValue branch) ;;;
  log "info" "Marking other directly downstream tasks as skipped" LNothing ;;;

  this <- lift (the_task context "task") ;;
  let downstream_tasks := downstream_list C this in
  log "debug" "Downstream task_ids %s" (LCmd (map (task_id C) downstream_tasks)) ;;;
  (* Avoid skipping tasks which are in the downstream of the branch we are taking *)
  d <- lift (the_dag context "dag") ;;
  branch_task <- lift (get_task C d branch) ;;
  let branch_downstream_tasks := downstream_list C branch_task in
  let skip_tasks := filter (fun t => str_ne (task_id C t) branch = true) downstream_tasks in
  (* Filter tasks which are also downstream tasks of the branch we are taking *)
  let skip_tasks :=
    filter (fun t => str_in_tasks C (task_id C t) branch_downstream_tasks = false) skip_tasks in
  log "debug" "Downstream tasks which we will skip, task_ids %s"
    (LCmd (map (task_id C) skip_tasks)) ;;;
  (match downstream_tasks with
   | _ :: _ =>
       run <- lift (item context "dag_run") ;;
       ti <- lift (the_task_instance context "ti") ;;
       skip C run (execution_date C ti) skip_tasks
   | [] => ret tt
   end) ;;;

  log "info" "Done." LNothing ;;;
  ret VNone.

End Methods.
End BranchPythonOperator.

Module ShortCircuitOperator.
Section Methods.
Context {O : Objects} (C : Collaborators O).

Definition execute (self : Running.t O) (context : gmap string (entry O)) : M pyval :=
  r <- Running.execute C self context ;;
  let '(condition, (self, context)) := r in
  log "info" "Condition result is %s" (LValue condition) ;;;

  if truthy C condition then
    log "info" "Proceeding with downstream tasks..." LNothing ;;;
    ret VNone
  else
    log "info" "Skipping downstream tasks..." LNothing ;;;

    this <- lift (the_task context "task") ;;
    let downstream_tasks := get_flat_relatives C this false in
    log "debug" "Downstream task_ids %s" (LCmd (map (task_id C) downstream_tasks)) ;;;

    (match downstream_tasks with
     | _ :: _ =>
         run <- lift (item context "dag_run") ;;
         ti <- lift (the_task_instance context "ti") ;;
         skip C run (execution_date C ti) downstream_tasks
     | [] => ret tt
     end) ;;;

    log "info" "Done." LNothing ;;;
    ret VNone.

End Methods.
End ShortCircuitOperator.

(** The record that [PythonOperator.execute] logs for a result. *)
Definition log_returned (v : pyval) : log_record :=
  LogRecord "info" "Done. Returned value was: %s" (LValue v).

(** The tasks that [BranchPythonOperator.execute] asks to skip: the
    directly downstream ones, without those whose id is the branch and
    without those whose id is found in the list of the tasks downstream of
    the branch. *)
Definition to_skip {O} (C : Collaborators O) (branch : pyval) (downstream beyond : list (task O))
    : list (task O) :=
  filter (fun t => str_in_tasks C (task_id C t) beyond = false)
    (filter (fun t => str_ne (task_id C t) branch = true) downstream).

(** The two worlds differ by log records only. *)
Definition only_logged (w w' : world) : Prop :=
  files w' = files w /\ trace w' = trace w /\ temp_serial w' = temp_serial w
  /\ exists records, logs w' = (logs w ++ records)%list.

(** The world after [BranchPythonOperator.execute] has logged the branch it
    follows, and after it has logged the tasks downstream and to skip. *)
Definition branch_announced (branch : pyval) (w : world) : world :=
  add_log (LogRecord "info" "Marking other directly downstream tasks as skipped" LNothing)
    (add_log (LogRecord "info" "Following branch %s" (LValue branch)) w).

Definition branch_listed (downstream skipped : list string) (w : world) : world :=
  add_log (LogRecord "debug" "Downstream tasks which we will skip, task_ids %s" (LCmd skipped))
    (add_log (LogRecord "debug" "Downstream task_ids %s" (LCmd downstream)) w).

Definition log_done : log_record := LogRecord "info" "Done." LNothing.

(** The world after [ShortCircuitOperator.execute] has logged the
    condition, and after it has logged that it skips and the tasks
    downstream. *)
Definition condition_logged (condition : pyval) (w : world) : world :=
  add_log (LogRecord "info" "Condition result is %s" (LValue condition)) w.

Definition skipping_logged (downstream : list string) (w : world) : world :=
  add_log (LogRecord "debug" "Downstream task_ids %s" (LCmd downstream))
    (add_log (LogRecord "info" "Skipping downstream tasks..." LNothing) w).

Definition log_proceeding : log_record :=
  LogRecord "info" "Proceeding with downstream tasks..." LNothing.

(** The keyword arguments that [PythonOperator.execute] calls the callable
    with. *)
Definition call_kwargs {O} (self : Running.t O) (context : gmap string (entry O))
    : gmap string (entry O) :=
  if Running.provide_context self
  then <["templates_dict" := Running.templates_value self]> (Running.op_kwargs self ∪ context)
  else Running.op_kwargs self.

(** ** More hosts, interpreters and operators for the examples *)

(** A host where every command ends with status 1. *)
Definition broken_host : Platform :=
  {| sys_version_major := 3;
     pickle := Pickle.python3;
     dill := Pickle.python3;
     spawn := fun _ fs => inr (1%Z, "virtualenv: command not found", fs) |}.

(** A host where the install of pip ends with status 1 and every other
    command with status 0. *)
Definition offline_host : Platform :=
  {| sys_version_major := 3;
     pickle := Pickle.python3;
     dill := Pickle.python3;
     spawn := fun cmd fs =>
       if String.eqb (nth 1 cmd "") "install"
       then inr (1%Z, "No matching distribution found", fs)
       else inr (0%Z, "", fs) |}.




(** The argument dict
    [{'args': [], 'kwargs': {'templates_dict': {'ds': '2018-01-01'}}}]
    and its pickle in protocol 3. *)
Definition example_arguments : pyval :=
  VDict (<["args" := VList []]>
           (<["kwargs" := VDict {["templates_dict" := VDict {["ds" := VStr "2018-01-01"]}]}]>
              ∅)).

Definition example_pickle : string :=
  String Pickle.PROTO (Pickle.byte 3) +:+
  "}q" +:+ Pickle.byte 0 +:+ "(" +:+
  "X" +:+ Pickle.byte 4 +:+ Pickle.byte 0 +:+ Pickle.byte 0 +:+ Pickle.byte 0 +:+
    "args" +:+ "q" +:+ Pickle.byte 1 +:+
  "]q" +:+ Pickle.byte 2 +:+
  "X" +:+ Pickle.byte 6 +:+ Pickle.byte 0 +:+ Pickle.byte 0 +:+ Pickle.byte 0 +:+
    "kwargs" +:+ "q" +:+ Pickle.byte 3 +:+
  "}q" +:+ Pickle.byte 4 +:+
  "X" +:+ Pickle.byte 14 +:+ Pickle.byte 0 +:+ Pickle.byte 0 +:+ Pickle.byte 0 +:+
    "templates_dict" +:+ "q" +:+ Pickle.byte 5 +:+
  "}q" +:+ Pickle.byte 6 +:+
  "X" +:+ Pickle.byte 2 +:+ Pickle.byte 0 +:+ Pickle.byte 0 +:+ Pickle.byte 0 +:+
    "ds" +:+ "q" +:+ Pickle.byte 7 +:+
  "X" +:+ Pickle.byte 10 +:+ Pickle.byte 0 +:+ Pickle.byte 0 +:+ Pickle.byte 0 +:+
    "2018-01-01" +:+ "q" +:+ Pickle.byte 8 +:+
  "ssu.".

(** [v] is [example_arguments]. *)
Definition is_example_arguments (v : pyval) : bool :=
  match v with
  | VDict m =>
      (size m =? 2)%nat &&
      match m !! "args", m !! "kwargs" with
      | Some (VList []), Some (VDict kwargs) =>
          (size kwargs =? 1)%nat &&
          match kwargs !! "templates_dict" with
          | Some (VDict td) =>
              (size td =? 1)%nat &&
              match td !! "ds" with
              | Some (VStr s) => String.eqb s "2018-01-01"
              | _ => false
              end
          | _ => false
          end
      | _, _ => false
      end
  | _ => false
  end.

(** The fragment of pickle with this one dict added, and a host that has
    it, where every command ends with status 0. *)
Definition example_codec : Codec :=
  {| dump := fun v =>
       if is_example_arguments v then inr example_pickle else dump Pickle.python3 v;
     load := fun data =>
       if String.eqb data example_pickle then inr example_arguments
       else load Pickle.python3 data |}.

Definition pickling_host : Platform :=
  {| sys_version_major := 3;
     pickle := example_codec;
     dill := example_codec;
     spawn := fun _ fs => inr (0%Z, "", fs) |}.


Definition def_count : py_function :=
  PyFunction "count"
    (Some ("def count():" +:+ Py.nl +:+
           "    return len(virtualenv_string_args)" +:+ Py.nl)).

(** An operator for [count] with two string arguments; one for [zero]
    that uses dill; one for [zero] with a requirement. *)
Definition count_operator : PythonVirtualenvOperator.t :=
  constructed (ObjFunction def_count) None None false true None None
    (Some ["alpha"; " beta "]) None None.


Definition numpy_operator : PythonVirtualenvOperator.t :=
  constructed Demo.def_zero (Some ["numpy"]) None false true None None None None None.

(** A DAG for the examples: [start] has the tasks [a], [b] and [c]
    directly downstream, and [c] is downstream of [a] too. A task is its
    id, no task is equal to a str, and [skip] logs the ids it is given. *)
Module Fork.

Definition objects : Objects :=
  {| task := string; dag := list string; dag_run := string;
     task_instance := string; timestamp := string |}.

Definition downstream (t : string) : list string :=
  if String.eqb t "start" then ["a"; "b"; "c"]
  else if String.eqb t "a" then ["c"]
  else [].

Definition collaborators : Collaborators objects :=
  {| task_id := fun t : task objects => (t : string);
     downstream_list := fun t : task objects => (downstream t : list (task objects));
     get_flat_relatives := fun (t : task objects) (upstream : bool) =>
       (if upstream then [] else downstream t) : list (task objects);
     get_task := fun (d : dag objects) (v : pyval) =>
       match v with
       | VStr s =>
           if existsb (String.eqb s) (d : list string)
           then inr (s : task objects)
           else inl (AirflowException ["Task not found"])
       | _ => inl (AirflowException ["Task not found"])
       end;
     execution_date := fun ti : task_instance objects => (ti : timestamp objects);
     task_equals := fun _ _ => false;
     object_truth := fun _ _ => true;
     skip := fun _ _ (tasks : list (task objects)) =>
       log "info" "skip" (LCmd (tasks : list string));
     call := fun fn _ _ =>
       match fn with
       | ObjFunction f =>
           if String.eqb (__name__ f) "choose" then ret (VStr "a")
           else if String.eqb (__name__ f) "never" then ret (VBool false)
           else raise (PyError ["NameError"; "Exception"] (__name__ f))
       | _ => raise (TypeError "object is not callable")
       end |}.

(** The context of a run of the task [t]. *)
Definition context (t : string) : gmap string (entry objects) :=
  {[ "task" := @TaskObject objects t;
     "dag" := @DagObject objects ["start"; "a"; "b"; "c"];
     "dag_run" := @DagRunObject objects "run 1";
     "ti" := @TaskInstanceObject objects "2018-01-01" ]}.

(** The operator of the callable named [name], without arguments. *)
Definition operator (name : string) : Running.t objects :=
  Running.of_operator
    {| PythonOperator.python_callable := ObjFunction (PyFunction name None);
       PythonOperator.op_args := [];
       PythonOperator.op_kwargs := ∅;
       PythonOperator.provide_context := false;
       PythonOperator.templates_dict := None;
       PythonOperator.template_ext := [] |}.

(** The same with [provide_context]. *)
Definition context_operator (name : string) : Running.t objects :=
  Running.of_operator
    {| PythonOperator.python_callable := ObjFunction (PyFunction name None);
       PythonOperator.op_args := [];
       PythonOperator.op_kwargs := ∅;
       PythonOperator.provide_context := true;
       PythonOperator.templates_dict := None;
       PythonOperator.template_ext := [] |}.

End Fork.

(** * Properties *)

(** ** Construction *)

Section Construction.
Import PythonVirtualenvOperator.
Context (P : Platform).

Lemma existsb_id_map {A} (f : A -> bool) (l : list A) :
  existsb id (map f l) = existsb f l.
Proof. induction l as [|a l IH]; simpl; [reflexivity | by rewrite IH]. Qed.

(** The four checks of [__init__], in the order the code makes them. *)
Lemma init_checks pc reqs pv ud ssp oa ok sa td te w :
  __init__ P pc reqs pv ud ssp oa ok sa td te w =
    if negb (callable pc) then
      (inl (AirflowException ["`python_callable` param must be callable"]), w)
    else if dill_missing ud ssp reqs then
      (inl (AirflowException [dill_message]), w)
    else if negb (plain_function pc) then
      (inl (AirflowException ["{} only supports functions for python_callable arg";
                              "PythonVirtualenvOperator"]), w)
    else match pv with
         | None => (inr (constructed pc reqs pv ud ssp oa ok sa td te), w)
         | Some v =>
             match first_char v with
             | inl e => (inl e, w)
             | inr _ =>
                 if other_major P v && has_arguments oa ok
                 then (inl (AirflowException [cross_version_message]), w)
                 else (inr (constructed pc reqs pv ud ssp oa ok sa td te), w)
             end
         end.
Proof.
  unfold __init__, PythonOperator.__init__, bind, raise, ret, lift,
    dill_missing, lists_dill.
  destruct (callable pc) eqn:Hc; simpl; [|reflexivity].
  rewrite existsb_id_map.
  destruct ud, ssp; simpl;
    try destruct (existsb _ (default [] reqs)); simpl;
    try reflexivity.
  all: destruct pc as [f| |]; simpl in *; try discriminate; try reflexivity.
  all: destruct (String.eqb (__name__ f) lambda_name); simpl; try reflexivity.
  all: destruct pv as [[|c v]|]; try reflexivity.
  all: unfold other_major, has_arguments, _pass_op_args;
    cbn [first_char op_args op_kwargs];
    match goal with
    | |- context [negb ?b && ?a] => destruct (negb b && a)
    end; reflexivity.
Qed.

(** Construction runs no command, touches no file and writes no log. *)
Lemma init_leaves_world pc reqs pv ud ssp oa ok sa td te w :
  snd (__init__ P pc reqs pv ud ssp oa ok sa td te w) = w.
Proof.
  rewrite init_checks.
  repeat match goal with
         | |- context [if ?b then _ else _] => destruct b; simpl; try reflexivity
         | |- context [match ?o with Some _ => _ | None => _ end] =>
             destruct o; simpl; try reflexivity
         | |- context [match ?o with inl _ => _ | inr _ => _ end] =>
             destruct o; simpl; try reflexivity
         end.
Qed.

(** C4. A [python_callable] that is not a function made by [def] (an
    object of another kind, or a lambda, recognised by its name) makes
    the construction raise an AirflowException, the world left as it
    was: no command has run. *)
Theorem construction_rejects_non_functions pc reqs pv ud ssp oa ok sa td te w :
  plain_function pc = false ->
  exists args,
    __init__ P pc reqs pv ud ssp oa ok sa td te w = (inl (AirflowException args), w).
Proof.
  intros Hpc. rewrite init_checks.
  destruct (negb (callable pc)); [eauto|].
  destruct (dill_missing ud ssp reqs); [eauto|].
  rewrite Hpc. simpl. eauto.
Qed.

(** C2. With a [python_version] whose first character is not the
    caller's major version and with positional or keyword arguments, the
    construction raises an AirflowException and the world is left as it
    was. When the other checks pass (a function made by [def], the dill
    requirement met) the exception is the cross-version error, and the
    same construction without [op_args] and [op_kwargs] returns the
    operator, whatever the [string_args]. *)
Theorem cross_version_arguments_rejected pc reqs v ud ssp oa ok sa td te w :
  other_major P v = true ->
  has_arguments oa ok = true ->
  (exists args,
     __init__ P pc reqs (Some v) ud ssp oa ok sa td te w = (inl (AirflowException args), w))
  /\ (plain_function pc = true ->
      dill_missing ud ssp reqs = false ->
      __init__ P pc reqs (Some v) ud ssp oa ok sa td te w
        = (inl (AirflowException [cross_version_message]), w)
      /\ forall sa',
           __init__ P pc reqs (Some v) ud ssp None None sa' td te w
             = (inr (constructed pc reqs (Some v) ud ssp None None sa' td te), w)).
Proof.
  intros Hv Ha. rewrite !init_checks.
  assert (Hf : exists c, first_char v = inr c)
    by (destruct v; [discriminate | simpl; eauto]).
  destruct Hf as [c Hf]. rewrite Hf, Hv, Ha. simpl.
  split.
  - repeat match goal with
           | |- context [if ?b then _ else _] => destruct b; simpl
           end; eauto.
  - intros Hpc Hdill.
    assert (Hc : callable pc = true) by (destruct pc; simpl in *; congruence).
    rewrite Hc, Hdill, Hpc. simpl. split; [reflexivity|].
    intros sa'. rewrite init_checks, Hf, Hc, Hdill, Hpc. simpl.
    replace (has_arguments None None) with false by reflexivity.
    rewrite andb_false_r. reflexivity.
Qed.

(** C5, as the code has it. When the dill requirement is violated
    ([use_dill], no system packages, no requirement starting with "dill"
    in any letter case) the construction raises an AirflowException. For a
    function made by [def], and with the cross-version check out of the
    way (no [python_version], or one that begins with the caller's major
    version or is the empty string, or no arguments), the construction
    raises the dill error exactly in that case; otherwise it returns the
    operator, unless [python_version] is the empty string, which has no
    first character: the construction then ends with an IndexError. *)
Theorem dill_requirement pc reqs pv ud ssp oa ok sa td te w :
  (dill_missing ud ssp reqs = true ->
   exists args,
     __init__ P pc reqs pv ud ssp oa ok sa td te w = (inl (AirflowException args), w))
  /\ (plain_function pc = true ->
      match pv with
      | None => True
      | Some v => other_major P v && has_arguments oa ok = false
      end ->
      __init__ P pc reqs pv ud ssp oa ok sa td te w =
        if dill_missing ud ssp reqs
        then (inl (AirflowException [dill_message]), w)
        else match pv with
             | Some EmptyString => (inl (IndexError "string index out of range"), w)
             | _ => (inr (constructed pc reqs pv ud ssp oa ok sa td te), w)
             end).
Proof.
  split.
  - intros Hd. rewrite init_checks, Hd.
    destruct (negb (callable pc)); eauto.
  - intros Hpc Hv. rewrite init_checks.
    assert (Hc : callable pc = true) by (destruct pc; simpl in *; congruence).
    rewrite Hc, Hpc. simpl.
    destruct (dill_missing ud ssp reqs); [reflexivity|].
    destruct pv as [v|]; [|reflexivity].
    rewrite Hv. destruct v; reflexivity.
Qed.

End Construction.

(** ** Strings *)

Lemma app_cons (c : ascii) (s t : string) : String c s +:+ t = String c (s +:+ t).
Proof. reflexivity. Qed.

Lemma str_app_nil_r (s : string) : s +:+ "" = s.
Proof. induction s as [|c s IH]; [reflexivity|]. by rewrite app_cons, IH. Qed.

Lemma app_assoc_s (s t u : string) : (s +:+ t) +:+ u = s +:+ (t +:+ u).
Proof. induction s as [|c s IH]; [reflexivity|]. by rewrite !app_cons, IH. Qed.

Lemma contains_app (c : ascii) (s t : string) :
  contains c (s +:+ t) = contains c s || contains c t.
Proof.
  induction s as [|x s IH]; [reflexivity|].
  rewrite app_cons. simpl. rewrite IH. by rewrite orb_assoc.
Qed.

Lemma split_lines_line (l rest : string) :
  contains Py.LF l = false ->
  Py.split_lines (l +:+ Py.nl +:+ rest) = l :: Py.split_lines rest.
Proof.
  induction l as [|c l IH]; intros Hl.
  - reflexivity.
  - simpl in Hl. apply orb_false_elim in Hl as [Hc Hl].
    rewrite app_cons. simpl. rewrite Hc, (IH Hl). reflexivity.
Qed.

(** ** Commands *)

Section Commands.
Import PythonVirtualenvOperator.

Lemma format_python_flag (v : string) :
  Py.format "--python=python{}" [v] [] = "--python=python" +:+ v.
Proof. unfold Py.format. cbn. by rewrite str_app_nil_r. Qed.

(** C7, as the code has it. The environment command is [virtualenv], the
    directory, then [--system-site-packages] exactly when
    [system_site_packages], then [--python=python<version>] exactly when
    a version is given; the install command is [<dir>/bin/pip install]
    followed by the requirements in order; the run command is
    [<dir>/bin/python], the script, then the input, output and
    string-args files, which the program finds at [sys.argv[1]],
    [sys.argv[2]] and [sys.argv[3]]. *)
Theorem command_shapes (self : t) (tmp_dir script input output strings : string) :
  _generate_virtualenv_cmd self tmp_dir =
    (["virtualenv"; tmp_dir]
     ++ (if system_site_packages self then ["--system-site-packages"] else [])
     ++ match python_version self with
        | Some v => ["--python=python" +:+ v]
        | None => []
        end)%list
  /\ _generate_pip_install_cmd self tmp_dir =
       match requirements self with
       | [] => []
       | _ :: _ => (tmp_dir +:+ "/bin/pip") :: "install" :: requirements self
       end
  /\ _generate_python_cmd self tmp_dir script input output strings =
       [tmp_dir +:+ "/bin/python"; script; input; output; strings]
  /\ (let argv := tl (_generate_python_cmd self tmp_dir script input output strings) in
      Script.argv_at argv 0 = inr script
      /\ Script.argv_at argv 1 = inr input
      /\ Script.argv_at argv 2 = inr output
      /\ Script.argv_at argv 3 = inr strings).
Proof.
  repeat split.
  - unfold _generate_virtualenv_cmd.
    destruct (system_site_packages self), (python_version self);
      simpl; rewrite ?format_python_flag; reflexivity.
  - unfold _generate_pip_install_cmd.
    destruct (requirements self); reflexivity.
Qed.

(** C7 as worded fails: for version 3 the flag is [--python=python3],
    not [--python=3]. *)
Lemma version_flag_names_interpreter :
  let self := constructed Demo.def_zero None (Some "3") false true None None None None None in
  _generate_virtualenv_cmd self "/tmp/venv0"
    = ["virtualenv"; "/tmp/venv0"; "--system-site-packages"; "--python=python3"]
  /\ _generate_virtualenv_cmd self "/tmp/venv0"
    <> ["virtualenv"; "/tmp/venv0"; "--system-site-packages"; "--python=3"].
Proof. split; [reflexivity | discriminate]. Qed.

End Commands.

(** ** The serialized inputs and the line that loads them *)

Section Inputs.
Import PythonVirtualenvOperator.
Context (P : Platform) (I : Interp).

Lemma generated_text (lib load lines name : string) :
  Py.format (Py.dedent script_template) []
    [("load_args_code", load); ("python_callable_lines", lines);
     ("python_callable_name", name); ("pickling_library", lib)]
  = program_text lib load lines name.
Proof. vm_compute. reflexivity. Qed.

Lemma generate_python_code_text (self : t) :
  _generate_python_code self =
    match getsource (python_callable self), name_of (python_callable self) with
    | inr src, inr name =>
        inr (program_text (pickling_library self) (load_args_line self) (Py.dedent src) name)
    | inl e, _ => inl e
    | _, inl e => inl e
    end.
Proof.
  unfold _generate_python_code.
  destruct (getsource _); [reflexivity|].
  destruct (name_of _); [reflexivity|].
  by rewrite generated_text.
Qed.

Lemma load_args_line_cases (self : t) :
  load_args_line self =
    if _pass_op_args self then load_line (pickling_library self) else empty_args_line.
Proof.
  unfold load_args_line. destruct (_pass_op_args self); [|reflexivity].
  generalize (pickling_library self). intros lib. vm_compute. reflexivity.
Qed.

Lemma load_args_line_one_line (self : t) : contains Py.LF (load_args_line self) = false.
Proof.
  rewrite load_args_line_cases. unfold pickling_library.
  destruct (_pass_op_args self), (use_dill self); reflexivity.
Qed.

Lemma third_line (lib load lines name : string) :
  contains Py.LF lib = false -> contains Py.LF load = false ->
  nth_error (Py.split_lines (program_text lib load lines name)) 2 = Some load.
Proof.
  intros Hlib Hload. unfold program_text.
  rewrite <- (app_assoc_s "import " lib).
  rewrite split_lines_line by (rewrite contains_app, Hlib; reflexivity).
  rewrite (split_lines_line "import sys") by reflexivity.
  rewrite (split_lines_line load) by assumption.
  reflexivity.
Qed.

Lemma write_args_world (self : t) (input_filename : string) (w : world) :
  _write_args P self input_filename w =
    if _pass_op_args self then
      match dump (if use_dill self then dill P else pickle P) (arg_dict self) with
      | inr blob =>
          (inr tt,
           World (<[input_filename := blob]> (files w))
                 (trace w ++ [EOpen input_filename "wb"; EWrite input_filename blob])
                 (logs w) (temp_serial w))
      | inl e =>
          (inl e,
           World (<[input_filename := ""]> (files w))
                 (trace w ++ [EOpen input_filename "wb"])
                 (logs w) (temp_serial w))
      end
    else (inr tt, w).
Proof.
  unfold _write_args. destruct (_pass_op_args self); [|reflexivity].
  unfold bind, open_w, write, lift, emit, set_files. simpl.
  destruct (use_dill self);
    match goal with |- context [dump ?c ?v] => destruct (dump c v) end;
    try reflexivity.
  all: rewrite lookup_insert_eq, insert_insert_eq, <- app_assoc; reflexivity.
Qed.


End Inputs.

(** ** The string arguments *)

Section StringArgs.
Import PythonVirtualenvOperator.
Context (I : Interp).

Lemma iter_lines_line (x rest : string) :
  contains Py.LF x = false ->
  Py.iter_lines (x +:+ Py.nl +:+ rest) = (x +:+ Py.nl) :: Py.iter_lines rest.
Proof.
  induction x as [|c x IH]; intros Hx.
  - reflexivity.
  - simpl in Hx. apply orb_false_elim in Hx as [Hc Hx].
    rewrite !app_cons. simpl. rewrite Hc, (IH Hx). reflexivity.
Qed.

Lemma iter_lines_single (x : string) :
  contains Py.LF x = false -> x <> "" -> Py.iter_lines x = [x].
Proof.
  induction x as [|c x IH]; intros Hx Hne; [congruence|].
  simpl in Hx. apply orb_false_elim in Hx as [Hc Hx].
  simpl. rewrite Hc.
  destruct x as [|d x]; [reflexivity|].
  rewrite IH; [reflexivity | assumption | discriminate].
Qed.

(** The line feed is white space in Python 2 and in Python 3. *)
Lemma isspace_line_feed : Script.isspace I Py.LF = true.
Proof. unfold Script.isspace. destruct (3 <=? version_major I)%nat; reflexivity. Qed.

Lemma rstrip_line_feed (white : ascii -> bool) (s : string) :
  white Py.LF = true -> Py.rstrip white (s +:+ Py.nl) = Py.rstrip white s.
Proof.
  intros Hlf. induction s as [|c s IH]; [simpl; by rewrite Hlf|].
  rewrite app_cons. simpl. rewrite IH. reflexivity.
Qed.

Lemma rstrip_clean (white : ascii -> bool) (s : string) :
  ends_with_space white s = false -> Py.rstrip white s = s.
Proof.
  induction s as [|c s IH]; [reflexivity|].
  intros H. destruct s as [|d s].
  - simpl in *. rewrite H. reflexivity.
  - change (ends_with_space white (String d s) = false) in H.
    change (Py.rstrip white (String c (String d s)))
      with (match Py.rstrip white (String d s) with
            | EmptyString => if white c then EmptyString else String c EmptyString
            | r => String c r
            end).
    rewrite (IH H). reflexivity.
Qed.

Lemma plain_argument_one_line (s : string) :
  plain_argument I s = true -> contains Py.LF s = false /\ contains Py.CR s = false.
Proof.
  unfold plain_argument, one_line. intros H.
  apply andb_prop in H as [H _]. apply andb_prop in H as [H _].
  apply andb_prop in H as [_ H]. apply andb_prop in H as [Hlf Hcr].
  split; by apply negb_true_iff.
Qed.

Lemma strip_line (s : string) :
  plain_argument I s = true ->
  Py.strip (Script.isspace I) (s +:+ Py.nl) = s /\ Py.strip (Script.isspace I) s = s.
Proof.
  unfold plain_argument. intros H.
  apply andb_prop in H as [H He]. apply andb_prop in H as [_ Hs].
  apply negb_true_iff in He, Hs.
  unfold Py.strip. destruct s as [|c s].
  - split; [|reflexivity]. simpl. by rewrite isspace_line_feed.
  - simpl in Hs. rewrite app_cons.
    cbn [Py.lstrip]. rewrite Hs. rewrite <- app_cons.
    rewrite rstrip_line_feed by apply isspace_line_feed.
    split; apply rstrip_clean; assumption.
Qed.

Lemma translate_no_cr (s : string) :
  contains Py.CR s = false -> Py.translate_newlines s = s.
Proof.
  induction s as [|c s IH]; [reflexivity|].
  simpl. intros H. apply orb_false_elim in H as [Hc Hs].
  rewrite Hc. rewrite (IH Hs). reflexivity.
Qed.

Lemma join_cons2 (x y : string) (l : list string) :
  Py.join Py.nl (x :: y :: l) = x +:+ Py.nl +:+ Py.join Py.nl (y :: l).
Proof. reflexivity. Qed.

Lemma join_no_cr (l : list string) :
  Forall (fun s => contains Py.CR s = false) l -> contains Py.CR (Py.join Py.nl l) = false.
Proof.
  induction l as [|x l IH]; intros H; [reflexivity|].
  apply Forall_cons in H as [Hcr Hl].
  destruct l as [|y l]; [exact Hcr|].
  rewrite join_cons2, !contains_app, Hcr, (IH Hl). reflexivity.
Qed.

Lemma lines_round_trip (l : list string) :
  Forall (fun s => plain_argument I s = true) l ->
  last l <> Some "" ->
  map (Py.strip (Script.isspace I)) (Py.iter_lines (Py.join Py.nl l)) = l.
Proof.
  induction l as [|x l IH]; intros H Hlast; [reflexivity|].
  apply Forall_cons in H as [Hx Hl].
  destruct (plain_argument_one_line x Hx) as [Hlf _].
  destruct l as [|y l].
  - change (Py.join Py.nl [x]) with x.
    rewrite iter_lines_single; [| assumption | intros ->; by apply Hlast].
    simpl. f_equal. apply strip_line, Hx.
  - rewrite join_cons2, iter_lines_line by assumption.
    simpl. f_equal; [apply strip_line, Hx|].
    apply IH; [assumption|]. exact Hlast.
Qed.

(** C8, as the code has it. For ASCII strings of one line each, without
    white space at either end as the [strip] of the reading interpreter
    takes it, the last of which is not empty, the file that
    [_write_string_args] writes is their join with line feeds, and the
    program reads the same strings back from it, in order; without
    strings the file is empty. *)
Theorem string_args_round_trip (self : t) (filename : string) (w : world) :
  Forall (fun s => plain_argument I s = true) (string_args self) ->
  last (string_args self) <> Some "" ->
  exists w',
    _write_string_args self filename w = (inr tt, w')
    /\ files w' !! filename = Some (Py.join Py.nl (string_args self))
    /\ Script.read_string_args I (Py.join Py.nl (string_args self)) = string_args self
    /\ (string_args self = [] -> files w' !! filename = Some "").
Proof.
  intros Hall Hlast.
  unfold _write_string_args, bind, open_w, write, emit, set_files. simpl.
  eexists. split; [reflexivity|]. simpl.
  rewrite map_id, !lookup_insert_eq. simpl.
  split; [reflexivity|]. split.
  - assert (Hcr : contains Py.CR (Py.join Py.nl (string_args self)) = false).
    { apply join_no_cr. eapply Forall_impl; [exact Hall|].
      intros s Hs. by apply plain_argument_one_line. }
    unfold Script.read_string_args, Script.decode_text.
    destruct (universal_newlines I); rewrite ?translate_no_cr by exact Hcr;
      by apply lines_round_trip.
  - intros ->. reflexivity.
Qed.

(** C8 as worded fails: an empty string at the end of the list has no
    line of its own in the file and is not read back. *)
Lemma trailing_empty_string_lost :
  Forall (fun s => plain_argument Demo.python3 s = true) ["alpha"; ""]
  /\ Script.read_string_args Demo.python3 (Py.join Py.nl ["alpha"; ""]) = ["alpha"]
  /\ Script.read_string_args Demo.python3 (Py.join Py.nl [""]) = [].
Proof.
  split; [|split; reflexivity].
  repeat constructor.
Qed.

End StringArgs.

(** ** The result file *)

Section Result.
Import PythonVirtualenvOperator.
Context (P : Platform) (I : Interp).

Lemma read_result_cases (self : t) (output_filename : string) (w : world) :
  _read_result P self output_filename w =
    match files w !! output_filename with
    | None => (inl (FileNotFoundError output_filename), emit (EStat output_filename) w)
    | Some data =>
        if (String.length data =? 0)%nat then (inr VNone, emit (EStat output_filename) w)
        else
          let w' := emit (EOpen output_filename "rb") (emit (EStat output_filename) w) in
          match load (if use_dill self then dill P else pickle P) data with
          | inr v => (inr v, w')
          | inl e =>
              if is_ValueError e then (inl e, add_log deserialize_diagnostic w')
              else (inl e, w')
          end
    end.
Proof.
  unfold _read_result, bind, stat_size, open_r, try_except, lift, log, raise, ret.
  destruct (files w !! output_filename) as [data|] eqn:Hf; [|reflexivity].
  destruct (String.length data =? 0)%nat; [reflexivity|].
  simpl. rewrite Hf.
  destruct (use_dill self);
    match goal with |- context [load ?c ?d] => destruct (load c d) as [e|v] end;
    try reflexivity.
  all: destruct (is_ValueError e); reflexivity.
Qed.

Lemma store_cases (self : t) (argv : list string) (res : pyval) (w : world) :
  Script.store I self argv res w =
    match nth_error argv 2 with
    | None => (inl (IndexError "list index out of range"), w)
    | Some out =>
        let opened := emit (EOpen out "wb") (set_files (<[out := ""]> (files w)) w) in
        match res with
        | VNone => (inr tt, opened)
        | _ =>
            match dump (module_codec I (pickling_library self)) res with
            | inr blob =>
                (inr tt, emit (EWrite out blob) (set_files (<[out := blob]> (files w)) opened))
            | inl e => (inl e, opened)
            end
        end
    end.
Proof.
  unfold Script.store, Script.argv_at, bind, lift, open_w, write, ret.
  destruct (nth_error argv 2) as [out|]; [|reflexivity].
  destruct res; try reflexivity;
    match goal with |- context [dump ?c ?v] => destruct (dump c v) end;
    try reflexivity.
  all: simpl; rewrite lookup_insert_eq, insert_insert_eq; reflexivity.
Qed.

(** C3, as the code has it. [_read_result] returns [None] for an output
    file of length zero; for any other content it returns what the
    library chosen by [use_dill] loads from it, whatever that is; when
    loading raises a ValueError the diagnostic is logged and the error
    raised again, and any other exception is raised without a log record.
    A result other than [None] whose dump is not empty and loads back is
    stored by the program and read back as itself. *)
Theorem read_result_decodes_output (self : t) (output_filename : string) (w : world) :
  _read_result P self output_filename w =
    match files w !! output_filename with
    | None => (inl (FileNotFoundError output_filename), emit (EStat output_filename) w)
    | Some data =>
        if (String.length data =? 0)%nat then (inr VNone, emit (EStat output_filename) w)
        else
          let w' := emit (EOpen output_filename "rb") (emit (EStat output_filename) w) in
          match load (if use_dill self then dill P else pickle P) data with
          | inr v => (inr v, w')
          | inl e =>
              if is_ValueError e then (inl e, add_log deserialize_diagnostic w')
              else (inl e, w')
          end
    end
  /\ message deserialize_diagnostic =
       "Error deserializing result. Note that result deserialization is not supported across major Python versions."
  /\ forall (argv : list string) (res : pyval) (blob : string),
       nth_error argv 2 = Some output_filename ->
       res <> VNone ->
       dump (module_codec I (if use_dill self then "dill" else "pickle")) res = inr blob ->
       blob <> "" ->
       load (if use_dill self then dill P else pickle P) blob = inr res ->
       exists w1 w2,
         Script.store I self argv res w = (inr tt, w1)
         /\ files w1 !! output_filename = Some blob
         /\ _read_result P self output_filename w1 = (inr res, w2).
Proof.
  split; [apply read_result_cases|]. split; [reflexivity|].
  intros argv res blob Hargv Hres Hdump Hne Hload.
  rewrite store_cases, Hargv. unfold pickling_library. simpl.
  rewrite Hdump.
  assert (Hlen : (String.length blob =? 0)%nat = false)
    by (destruct blob; [congruence | reflexivity]).
  destruct res; try congruence.
  all: eexists; eexists; split; [reflexivity|].
  all: rewrite read_result_cases; simpl; rewrite lookup_insert_eq, Hlen, Hload.
  all: split; reflexivity.
Qed.

End Result.

Section OutputFile.
Import PythonVirtualenvOperator.
Context (P : Platform) (I : Interp).



End OutputFile.

(** ** The steps of one invocation *)

Section Orchestration.
Import PythonVirtualenvOperator.
Context (P : Platform).

Lemma bind_inr {A B} (m : M A) (k : A -> M B) (w w' : world) (a : A) :
  m w = (inr a, w') -> bind m k w = k a w'.
Proof. intros H. unfold bind. rewrite H. reflexivity. Qed.

Lemma bind_inl {A B} (m : M A) (k : A -> M B) (w w' : world) (e : exn) :
  m w = (inl e, w') -> bind m k w = (inl e, w').
Proof. intros H. unfold bind. rewrite H. reflexivity. Qed.

Lemma subprocess_cases (self : t) (cmd : list string) (w : world) :
  _execute_in_subprocess P self cmd w =
    match spawn P cmd (files w) with
    | inl e =>
        (inl e,
         World (files w) (trace w ++ [ESpawn cmd])
               (logs w ++ log_executing cmd ::
                  match e with
                  | CalledProcessError _ _ output => [log_error_output output]
                  | _ => []
                  end)
               (temp_serial w))
    | inr (code, output, fs) =>
        if (code =? 0)%Z then
          (inr tt,
           World fs (trace w ++ [ESpawn cmd])
                 (logs w ++ log_executing cmd ::
                    if String.eqb output "" then [] else [log_output output])
                 (temp_serial w))
        else
          (inl (CalledProcessError code cmd output),
           World fs (trace w ++ [ESpawn cmd])
                 (logs w ++ [log_executing cmd; log_error_output output])
                 (temp_serial w))
    end.
Proof.
  unfold _execute_in_subprocess, try_except, bind, log, check_output, raise, ret,
    add_log, emit, set_files.
  simpl.
  destruct (spawn P cmd (files w)) as [e|[[code output] fs]]; simpl.
  - destruct e; simpl; rewrite <- ?app_assoc; reflexivity.
  - destruct (code =? 0)%Z; simpl.
    + destruct (String.eqb output ""); simpl; rewrite <- ?app_assoc; reflexivity.
    + rewrite <- app_assoc. reflexivity.
Qed.


Lemma runs_ret {A} (a : A) : runs (ret a) [[]].
Proof.
  intros w. exists []. simpl. rewrite List.app_nil_r. split; [reflexivity | by left].
Qed.

Lemma runs_bind {A B} (m : M A) (k : A -> M B) (first : list event)
    (oks : list (list event)) :
  oks <> [] ->
  runs m [first] -> (forall a, runs (k a) oks) ->
  runs (bind m k) (map (app first) oks).
Proof.
  intros Hne Hm Hk w. destruct (Hm w) as (b1 & Ht1 & Hr1).
  unfold bind. destruct (m w) as [[e|a] w1]; simpl in *.
  - exists b1. split; [assumption|].
    destruct Hr1 as (full & [<-|[]] & Hpre).
    destruct oks as [|ok0 oks]; [congruence|].
    exists (first ++ ok0)%list. split; [by left|].
    by apply prefix_app_r.
  - destruct Hr1 as [Hr1|[]].
    destruct (Hk a w1) as (b2 & Ht2 & Hr2).
    exists (b1 ++ b2)%list. split.
    { rewrite Ht2, Ht1. by rewrite app_assoc. }
    rewrite map_app, <- Hr1.
    destruct (fst (k a w1)).
    + destruct Hr2 as (full & Hin & Hpre).
      exists (first ++ full)%list. split; [by apply in_map|].
      by apply prefix_app.
    + by apply in_map.
Qed.

Lemma runs_execute_in_subprocess (self : t) (cmd : list string) :
  runs (_execute_in_subprocess P self cmd) [[ESpawn cmd]].
Proof.
  intros w. exists [ESpawn cmd].
  unfold _execute_in_subprocess, try_except, bind, log, check_output, raise, ret.
  simpl.
  destruct (spawn P cmd (files w)) as [e|[[code output] fs]]; simpl.
  - destruct e; simpl; (split; [reflexivity|]); eexists; (split; [by left | done]).
  - destruct (code =? 0)%Z; simpl.
    + destruct (negb (String.eqb output "")); simpl; (split; [reflexivity | by left]).
    + split; [reflexivity|]. eexists. split; [by left | done].
Qed.

Lemma runs_write_args (self : t) (path : string) :
  runs (_write_args P self path)
    [if _pass_op_args self then [EOpen path "wb"; EWrite path ""] else []].
Proof.
  intros w. rewrite write_args_world.
  destruct (_pass_op_args self).
  - destruct (dump _ _) as [e|blob]; simpl.
    + exists [EOpen path "wb"]. split; [reflexivity|].
      eexists. split; [by left|]. by exists [EWrite path ""].
    + exists [EOpen path "wb"; EWrite path blob]. split; [reflexivity | by left].
  - exists []. simpl. rewrite List.app_nil_r. split; [reflexivity | by left].
Qed.

Lemma runs_write_script (self : t) (path : string) :
  runs (_write_script self path) [[EOpen path "w"; EWrite path ""]].
Proof.
  intros w. unfold _write_script, bind, open_w, lift, log, write. simpl.
  destruct (_generate_python_code self) as [e|code]; simpl.
  - exists [EOpen path "w"]. split; [reflexivity|].
    eexists. split; [by left|]. by exists [EWrite path ""].
  - exists [EOpen path "w"; EWrite path code].
    split; [by rewrite <- app_assoc | by left].
Qed.

Lemma runs_write_string_args (self : t) (path : string) :
  runs (_write_string_args self path) [[EOpen path "w"; EWrite path ""]].
Proof.
  intros w. unfold _write_string_args, bind, open_w, write. simpl.
  eexists [EOpen path "w"; EWrite path _].
  split; [by rewrite <- app_assoc | by left].
Qed.

Lemma runs_read_result (self : t) (path : string) :
  runs (_read_result P self path) [[EStat path]; [EStat path; EOpen path "rb"]].
Proof.
  intros w. rewrite read_result_cases.
  destruct (files w !! path) as [data|]; simpl.
  - destruct (String.length data =? 0)%nat; simpl.
    + exists [EStat path]. split; [reflexivity | by left].
    + exists [EStat path; EOpen path "rb"].
      destruct (load _ _) as [e|v]; [destruct (is_ValueError e)|]; simpl;
        (split; [by rewrite <- app_assoc|]);
        try (by right; left);
        (eexists; split; [by right; left | done]).
  - exists [EStat path]. split; [reflexivity|].
    eexists. split; [by left | done].
Qed.

Lemma rmtree_clears (dir path : string) (fs : gmap string string) :
  under dir path = true -> rmtree dir fs !! path = None.
Proof.
  intros Hu. unfold rmtree. apply map_lookup_filter_None. right.
  intros x _. simpl. rewrite Hu. discriminate.
Qed.

Lemma pip_cmd_empty (self : t) (tmp_dir : string) :
  _generate_pip_install_cmd self tmp_dir = [] <-> requirements self = [].
Proof.
  unfold _generate_pip_install_cmd.
  destruct (requirements self); simpl; split; congruence.
Qed.

Lemma execute_callable_in_workspace (self : t) :
  execute_callable P self = TemporaryDirectory "venv" (in_workspace P self).
Proof. reflexivity. Qed.

Lemma runs_in_workspace (self : t) (tmp_dir : string) :
  runs (in_workspace P self tmp_dir)
       [steps self tmp_dir;
        (steps self tmp_dir ++ [EOpen (output_file tmp_dir) "rb"])%list].
Proof.
  unfold steps, in_workspace. cbv zeta. set (self' := merge_templates_dict self).
  eapply (eq_ind _ (runs _)).
  - apply runs_bind; [| apply runs_execute_in_subprocess | intros _].
    2: apply runs_bind;
         [| instantiate (1 := match requirements self' with
                              | [] => []
                              | _ :: _ => [ESpawn (_generate_pip_install_cmd self' tmp_dir)]
                              end);
            unfold _generate_pip_install_cmd;
            destruct (requirements self'); simpl;
            [apply runs_ret | apply runs_execute_in_subprocess]
          | intros _].
    3: apply runs_bind; [| apply runs_write_args | intros _].
    4: apply runs_bind; [| apply runs_write_script | intros _].
    5: apply runs_bind; [| apply runs_write_string_args | intros _].
    6: apply runs_bind; [| apply runs_execute_in_subprocess | intros _].
    7: apply runs_read_result.
    all: simpl; discriminate.
  - simpl. rewrite <- !app_assoc. simpl. reflexivity.
Qed.

Lemma in_workspace_in_order (self : t) (tmp_dir : string) (w : world) :
  in_workspace P self tmp_dir w =
    match in_order (actions P self tmp_dir) w with
    | (Some e, w') => (inl e, w')
    | (None, w') => _read_result P (merge_templates_dict self) (output_file tmp_dir) w'
    end.
Proof.
  unfold in_workspace, actions. cbv zeta.
  set (self' := merge_templates_dict self).
  unfold in_order.
  unfold bind at 1.
  destruct (_execute_in_subprocess P self' _ w) as [[e|[]] w1]; [reflexivity|].
  unfold bind at 1.
  destruct (match _generate_pip_install_cmd self' tmp_dir with
            | [] => ret tt
            | _ :: _ => _
            end w1) as [[e|[]] w2]; [reflexivity|].
  unfold bind at 1.
  destruct (_write_args P self' _ w2) as [[e|[]] w3]; [reflexivity|].
  unfold bind at 1.
  destruct (_write_script self' _ w3) as [[e|[]] w4]; [reflexivity|].
  unfold bind at 1.
  destruct (_write_string_args self' _ w4) as [[e|[]] w5]; [reflexivity|].
  unfold bind at 1.
  destruct (_execute_in_subprocess P self' _ w5) as [[e|[]] w6]; reflexivity.
Qed.

(** C6. One invocation of [execute_callable] creates the workspace, then
    does the steps in their order, each at most once: the virtualenv
    command, the pip command (no command at all exactly when there are no
    requirements, the builder then returning the empty command), the
    inputs (written when there are arguments), the script, the string
    arguments, the program. The first step that raises ends the
    invocation with its exception, the world being as that step left it
    but for the release: no later step runs and no result is read. When
    no step raises the result of the invocation is the outcome of
    [_read_result]. In every case the release of the workspace comes last
    and leaves no file under it. The events of the invocation are,
    accordingly, the whole sequence of the steps when it returns and a
    beginning of it when it raises. *)
Theorem execute_callable_steps (self : t) (w : world) :
  exists tmp_dir body,
    execute_callable P self w =
      match in_order (actions P self tmp_dir) (created tmp_dir w) with
      | (Some e, w2) => (inl e, released tmp_dir w2)
      | (None, w2) =>
          (fst (_read_result P (merge_templates_dict self) (output_file tmp_dir) w2),
           released tmp_dir
             (snd (_read_result P (merge_templates_dict self) (output_file tmp_dir) w2)))
      end
    /\ trace (snd (execute_callable P self w))
       = (trace w ++ EMkdtemp tmp_dir :: body ++ [ERmtree tmp_dir])%list
    /\ match fst (execute_callable P self w) with
       | inr _ =>
           map shape body = steps self tmp_dir
           \/ map shape body = (steps self tmp_dir ++ [EOpen (output_file tmp_dir) "rb"])%list
       | inl _ =>
           map shape body `prefix_of`
             (steps self tmp_dir ++ [EOpen (output_file tmp_dir) "rb"])%list
       end
    /\ (forall path, under tmp_dir path = true ->
                     files (snd (execute_callable P self w)) !! path = None)
    /\ (_generate_pip_install_cmd (merge_templates_dict self) tmp_dir = []
        <-> requirements self = []).
Proof.
  rewrite execute_callable_in_workspace. unfold TemporaryDirectory.
  set (tmp_dir := "/tmp/" +:+ "venv" +:+ Py.str_of_nat (temp_serial w)).
  fold (created tmp_dir w).
  exists tmp_dir.
  destruct (runs_in_workspace self tmp_dir (created tmp_dir w)) as (body & Ht & Hr).
  pose proof (in_workspace_in_order self tmp_dir (created tmp_dir w)) as Horder.
  remember (steps self tmp_dir) as plan eqn:Hplan. clear Hplan.
  destruct (in_workspace P self tmp_dir (created tmp_dir w)) as [r w2].
  cbn [fst snd] in *.
  exists body. split; [|split; [|split; [|split]]].
  - fold (released tmp_dir w2).
    destruct (in_order _ _) as [[e|] w3].
    + injection Horder as -> ->. reflexivity.
    + rewrite <- Horder. reflexivity.
  - simpl. rewrite Ht. simpl. rewrite <- !app_assoc. reflexivity.
  - destruct r as [e|v].
    + destruct Hr as (full & [<-|[<-|[]]] & Hpre);
        [by apply prefix_app_r | exact Hpre].
    + destruct Hr as [Hr|[Hr|[]]]; [left | right]; symmetry; assumption.
  - intros path Hu. by apply rmtree_clears.
  - rewrite pip_cmd_empty. unfold merge_templates_dict.
    destruct (templates_dict self) as [td|]; [|reflexivity].
    destruct (0 <? size td)%nat; reflexivity.
Qed.

Lemma write_script_cases (self : t) (path : string) (w : world) :
  _write_script self path w =
    match _generate_python_code self with
    | inr code =>
        (inr tt,
         World (<[path := code]> (files w))
               (trace w ++ [EOpen path "w"; EWrite path code])
               (logs w ++ [log_writing_code code]) (temp_serial w))
    | inl e =>
        (inl e,
         World (<[path := ""]> (files w)) (trace w ++ [EOpen path "w"])
               (logs w) (temp_serial w))
    end.
Proof.
  unfold _write_script, bind, open_w, lift, log, write, emit, set_files, add_log.
  simpl. destruct (_generate_python_code self); simpl; [reflexivity|].
  rewrite lookup_insert_eq, insert_insert_eq, <- app_assoc. reflexivity.
Qed.

Lemma appends_bind {A B} (m : M A) (k : A -> M B) :
  appends m -> (forall a, appends (k a)) -> appends (bind m k).
Proof.
  intros Hm Hk w. destruct (Hm w) as [b1 H1]. unfold bind.
  destruct (m w) as [[e|a] w1]; simpl in *; [eauto|].
  destruct (Hk a w1) as [b2 H2]. exists (b1 ++ b2)%list.
  rewrite H2, H1. by rewrite app_assoc.
Qed.

Lemma runs_appends {A} (m : M A) (oks : list (list event)) : runs m oks -> appends m.
Proof. intros H w. destruct (H w) as (body & Ht & _). eauto. Qed.

Lemma subprocess_ok_trace (self : t) (cmd : list string) (w : world) (output : string)
    (fs : gmap string string) :
  spawn P cmd (files w) = inr (0%Z, output, fs) ->
  exists w', _execute_in_subprocess P self cmd w = (inr tt, w')
             /\ trace w' = (trace w ++ [ESpawn cmd])%list.
Proof.
  intros H. rewrite subprocess_cases, H. simpl. eexists. split; reflexivity.
Qed.

(** C9. An operator built without positional and keyword arguments but
    with a non-empty [templates_dict] passes the construction checks
    whatever its [python_version], since it has no arguments then; in
    [execute_callable] the merge of [templates_dict] into the keyword
    arguments gives it one. So the program generated for a function with a
    source loads its arguments from the input file, and an invocation in
    which the commands of virtualenv and pip succeed opens the input file
    and writes into it the dump of the arguments, the keyword arguments
    being [templates_dict] under its key, right after these commands,
    whatever happens later; for a function with a source the next thing it
    writes is the script whose third line loads the arguments. *)
Theorem templates_dict_crosses_boundary (pc : pyobject) (reqs : option (list string))
    (v : string) (ud ssp : bool) (sa : option (list string))
    (td : gmap string pyval) (te : option (list string)) (w : world) :
  plain_function pc = true ->
  dill_missing ud ssp reqs = false ->
  v <> "" ->
  td <> ∅ ->
  let self := constructed pc reqs (Some v) ud ssp None None sa (Some td) te in
  __init__ P pc reqs (Some v) ud ssp None None sa (Some td) te w = (inr self, w)
  /\ _pass_op_args self = false
  /\ op_kwargs (merge_templates_dict self) = {["templates_dict" := VDict td]}
  /\ _pass_op_args (merge_templates_dict self) = true
  /\ load_args_line (merge_templates_dict self) = load_line (if ud then "dill" else "pickle")
  /\ (forall f src,
        pc = ObjFunction f ->
        fn_source f = Some src ->
        exists code,
          _generate_python_code (merge_templates_dict self) = inr code
          /\ nth_error (Py.split_lines code) 2
             = Some (load_line (if ud then "dill" else "pickle")))
  /\ (forall w0 blob,
        let tmp_dir := workspace_of w0 in
        (forall fs, exists out fs',
            spawn P (_generate_virtualenv_cmd (merge_templates_dict self) tmp_dir) fs
            = inr (0%Z, out, fs')) ->
        (default [] reqs <> [] ->
         forall fs, exists out fs',
            spawn P (_generate_pip_install_cmd (merge_templates_dict self) tmp_dir) fs
            = inr (0%Z, out, fs')) ->
        dump (if ud then dill P else pickle P)
          (VDict (<["args" := VList []]>
                    (<["kwargs" := VDict {["templates_dict" := VDict td]}]> ∅)))
        = inr blob ->
        exists pre post,
          trace (snd (execute_callable P self w0))
          = (trace w0 ++ EMkdtemp tmp_dir :: pre
               ++ EOpen (input_file tmp_dir) "wb"
               :: EWrite (input_file tmp_dir) blob :: post)%list
          /\ forallb is_spawn pre = true
          /\ forall f src,
               pc = ObjFunction f ->
               fn_source f = Some src ->
               exists code rest,
                 post = EOpen (script_file tmp_dir) "w"
                        :: EWrite (script_file tmp_dir) code :: rest
                 /\ nth_error (Py.split_lines code) 2
                    = Some (load_line (if ud then "dill" else "pickle"))).
Proof.
  intros Hpc Hdill Hv Htd self.
  assert (Hsize : (0 <? size td)%nat = true).
  { apply Nat.ltb_lt. destruct (size td) eqn:Hs; [|lia].
    apply map_size_empty_iff in Hs. congruence. }
  assert (Hmerge : op_kwargs (merge_templates_dict self) = {["templates_dict" := VDict td]}).
  { unfold merge_templates_dict. simpl. rewrite Hsize. reflexivity. }
  assert (Hargs : op_args (merge_templates_dict self) = []).
  { unfold merge_templates_dict. simpl. rewrite Hsize. reflexivity. }
  assert (Hdill' : use_dill (merge_templates_dict self) = ud).
  { unfold merge_templates_dict. simpl. rewrite Hsize. reflexivity. }
  assert (Hreqs : requirements (merge_templates_dict self) = default [] reqs).
  { unfold merge_templates_dict. simpl. rewrite Hsize. reflexivity. }
  assert (Hcallable : python_callable (merge_templates_dict self) = pc).
  { unfold merge_templates_dict. simpl. rewrite Hsize. reflexivity. }
  assert (Hpass : _pass_op_args (merge_templates_dict self) = true).
  { unfold _pass_op_args. rewrite Hmerge, Hargs, map_size_singleton. reflexivity. }
  assert (Hline : load_args_line (merge_templates_dict self)
                  = load_line (if ud then "dill" else "pickle")).
  { rewrite load_args_line_cases, Hpass. unfold pickling_library.
    rewrite Hdill'. reflexivity. }
  assert (Hprog : forall f src,
             pc = ObjFunction f ->
             fn_source f = Some src ->
             exists code,
               _generate_python_code (merge_templates_dict self) = inr code
               /\ nth_error (Py.split_lines code) 2
                  = Some (load_line (if ud then "dill" else "pickle"))).
  { intros f src Hf Hsrc.
    rewrite generate_python_code_text, Hcallable, Hf. simpl. rewrite Hsrc.
    eexists. split; [reflexivity|]. rewrite <- Hline.
    apply third_line; [|apply load_args_line_one_line].
    unfold pickling_library. destruct (use_dill _); reflexivity. }
  split; [|split; [|split; [|split; [|split; [|split]]]]].
  - rewrite init_checks.
    assert (Hc : callable pc = true) by (destruct pc; simpl in *; congruence).
    rewrite Hc, Hdill, Hpc. simpl.
    destruct v; [congruence|]. simpl.
    replace (has_arguments None None) with false by reflexivity.
    rewrite andb_false_r. reflexivity.
  - reflexivity.
  - exact Hmerge.
  - exact Hpass.
  - exact Hline.
  - exact Hprog.
  - intros w0 blob tmp_dir Hvenv Hpip Hdump.
    rewrite execute_callable_in_workspace. unfold TemporaryDirectory.
    fold (workspace_of w0). fold tmp_dir. fold (created tmp_dir w0).
    unfold in_workspace. cbv zeta.
    set (merged := merge_templates_dict self) in *.
    (* the two commands *)
    destruct (Hvenv (files (created tmp_dir w0))) as (out1 & fs1 & Hspawn1).
    destruct (subprocess_ok_trace merged _ _ out1 fs1 Hspawn1) as (w1 & Hw1 & Ht1).
    erewrite bind_inr by exact Hw1.
    assert (Hstep2 : exists w2 pip,
               (match _generate_pip_install_cmd merged tmp_dir with
                | _ :: _ => _execute_in_subprocess P merged
                              (_generate_pip_install_cmd merged tmp_dir)
                | [] => ret tt
                end) w1 = (inr tt, w2)
               /\ trace w2 = (trace w1 ++ pip)%list
               /\ forallb is_spawn pip = true).
    { destruct (_generate_pip_install_cmd merged tmp_dir) as [|c cmd] eqn:Hcmd.
      - exists w1, []. rewrite List.app_nil_r. repeat split.
      - assert (Hreq : default [] reqs <> []).
        { intros Hreq. rewrite <- Hreqs in Hreq.
          apply (pip_cmd_empty merged tmp_dir) in Hreq. congruence. }
        destruct (Hpip Hreq (files w1)) as (out2 & fs2 & Hp).
        try rewrite Hcmd in Hp.
        destruct (subprocess_ok_trace merged _ w1 out2 fs2 Hp) as (w2 & Hw2 & Ht2).
        exists w2, [ESpawn (c :: cmd)]. repeat split; assumption. }
    destruct Hstep2 as (w2 & pip & Hw2 & Ht2 & Hpipe). erewrite bind_inr by exact Hw2.
    (* the input file *)
    assert (Hw3 : _write_args P merged (input_file tmp_dir) w2
                  = (inr tt,
                     World (<[input_file tmp_dir := blob]> (files w2))
                           (trace w2 ++ [EOpen (input_file tmp_dir) "wb";
                                         EWrite (input_file tmp_dir) blob])
                           (logs w2) (temp_serial w2))).
    { rewrite write_args_world, Hpass, Hdill'. unfold arg_dict.
      rewrite Hargs, Hmerge, Hdump. reflexivity. }
    erewrite bind_inr by exact Hw3.
    set (w3 := World _ _ _ _).
    assert (Ht3 : trace w3 = (trace w2 ++ [EOpen (input_file tmp_dir) "wb";
                                           EWrite (input_file tmp_dir) blob])%list)
      by reflexivity.
    (* what follows the script only adds events *)
    assert (Hrest : appends
              (_write_string_args merged (string_args_file tmp_dir) ;;;
               _execute_in_subprocess P merged
                 (_generate_python_cmd merged tmp_dir (script_file tmp_dir)
                    (input_file tmp_dir) (output_file tmp_dir)
                    (string_args_file tmp_dir)) ;;;
               _read_result P merged (output_file tmp_dir))).
    { apply appends_bind; [eapply runs_appends, runs_write_string_args | intros _].
      apply appends_bind; [eapply runs_appends, runs_execute_in_subprocess | intros _].
      eapply runs_appends, runs_read_result. }
    unfold bind at 1. rewrite write_script_cases.
    destruct (_generate_python_code merged) as [e|code] eqn:Hgen.
    + (* no text: there is no source *)
      exists (ESpawn (_generate_virtualenv_cmd merged tmp_dir) :: pip),
             [EOpen (script_file tmp_dir) "w"; ERmtree tmp_dir].
      split; [|split; [exact Hpipe|]].
      * simpl. rewrite ?Ht3, ?Ht2, ?Ht1. simpl. rewrite <- !app_assoc. reflexivity.
      * intros f src Hf Hsrc. destruct (Hprog f src Hf Hsrc) as (code & Hcode & _).
        congruence.
    + set (w4 := World _ _ _ _).
      assert (Ht4 : trace w4 = (trace w3 ++ [EOpen (script_file tmp_dir) "w";
                                             EWrite (script_file tmp_dir) code])%list)
        by reflexivity.
      destruct (Hrest w4) as [post Hpost].
      destruct (bind _ _ w4) as [r wf]. simpl in Hpost |- *.
      exists (ESpawn (_generate_virtualenv_cmd merged tmp_dir) :: pip),
             (EOpen (script_file tmp_dir) "w" :: EWrite (script_file tmp_dir) code
                :: post ++ [ERmtree tmp_dir])%list.
      split; [|split; [exact Hpipe|]].
      * rewrite Hpost, ?Ht4, ?Ht3, ?Ht2, ?Ht1. simpl. rewrite ?Ht2, ?Ht1. simpl.
        rewrite <- !app_assoc. simpl. rewrite <- ?app_assoc. reflexivity.
      * intros f src Hf Hsrc. destruct (Hprog f src Hf Hsrc) as (code' & Hcode & Hthird).
        exists code, (post ++ [ERmtree tmp_dir])%list. split; [reflexivity|].
        assert (Hsame : code' = code) by congruence. subst code'. exact Hthird.
Qed.

End Orchestration.

(** ** Instances *)

Section Instances.
Import PythonVirtualenvOperator.


Lemma construction_rejects_non_functions_witness :
  plain_function Demo.a_lambda = false
  /\ exists args,
       __init__ Demo.host Demo.a_lambda None None false true None None None None None
         Demo.empty_world
       = (inl (AirflowException args), Demo.empty_world).
Proof.
  split; [reflexivity|].
  apply (construction_rejects_non_functions Demo.host Demo.a_lambda).
  reflexivity.
Defined.

Lemma cross_version_arguments_rejected_witness :
  other_major Demo.host "2.7" = true
  /\ has_arguments (Some [VInt 2; VInt 3]) None = true
  /\ plain_function Demo.def_zero = true
  /\ dill_missing false true None = false
  /\ (exists args,
        __init__ Demo.host Demo.def_zero None (Some "2.7") false true
          (Some [VInt 2; VInt 3]) None (Some ["alpha"]) None None Demo.empty_world
        = (inl (AirflowException args), Demo.empty_world))
  /\ __init__ Demo.host Demo.def_zero None (Some "2.7") false true
       (Some [VInt 2; VInt 3]) None (Some ["alpha"]) None None Demo.empty_world
     = (inl (AirflowException [cross_version_message]), Demo.empty_world)
  /\ __init__ Demo.host Demo.def_zero None (Some "2.7") false true
       None None (Some ["alpha"]) None None Demo.empty_world
     = (inr (constructed Demo.def_zero None (Some "2.7") false true None None
               (Some ["alpha"]) None None),
        Demo.empty_world).
Proof.
  assert (H1 : other_major Demo.host "2.7" = true) by reflexivity.
  assert (H2 : has_arguments (Some [VInt 2; VInt 3]) None = true) by reflexivity.
  assert (H3 : plain_function Demo.def_zero = true) by reflexivity.
  assert (H4 : dill_missing false true None = false) by reflexivity.
  destruct (cross_version_arguments_rejected Demo.host Demo.def_zero None "2.7" false true
              (Some [VInt 2; VInt 3]) None (Some ["alpha"]) None None Demo.empty_world
              H1 H2) as [Hraise Hrest].
  destruct (Hrest H3 H4) as [Hcross Hplain].
  repeat (split; [assumption|]). apply Hplain.
Defined.

Lemma dill_requirement_witness :
  dill_missing true false (Some ["numpy"]) = true
  /\ plain_function Demo.def_zero = true
  /\ (exists args,
        __init__ Demo.host Demo.def_zero (Some ["numpy"]) None true false
          None None None None None Demo.empty_world
        = (inl (AirflowException args), Demo.empty_world))
  /\ __init__ Demo.host Demo.def_zero (Some ["numpy"; "Dill==0.2"]) None true false
       None None None None None Demo.empty_world
     = (inr (constructed Demo.def_zero (Some ["numpy"; "Dill==0.2"]) None true false
               None None None None None),
        Demo.empty_world)
  /\ __init__ Demo.host Demo.def_zero (Some ["numpy"; "Dill==0.2"]) (Some "") true false
       None None None None None Demo.empty_world
     = (inl (IndexError "string index out of range"), Demo.empty_world).
Proof.
  split; [reflexivity|]. split; [reflexivity|]. split; [|split].
  - apply (dill_requirement Demo.host Demo.def_zero (Some ["numpy"]) None true false
             None None None None None Demo.empty_world).
    reflexivity.
  - apply (proj2 (dill_requirement Demo.host Demo.def_zero (Some ["numpy"; "Dill==0.2"])
                    None true false None None None None None Demo.empty_world));
      [reflexivity | exact Logic.I].
  - apply (proj2 (dill_requirement Demo.host Demo.def_zero (Some ["numpy"; "Dill==0.2"])
                    (Some "") true false None None None None None Demo.empty_world));
      reflexivity.
Defined.

(** C5 as worded fails: without [use_dill] the construction still fails
    for a lambda, with a configuration error, and for an empty
    [python_version], with an IndexError. *)
Lemma construction_fails_without_dill :
  dill_missing false true None = false
  /\ __init__ Demo.host Demo.a_lambda None None false true None None None None None
       Demo.empty_world
     = (inl (AirflowException ["{} only supports functions for python_callable arg";
                               "PythonVirtualenvOperator"]),
        Demo.empty_world)
  /\ __init__ Demo.host Demo.def_zero None (Some "") false true None None None None None
       Demo.empty_world
     = (inl (IndexError "string index out of range"), Demo.empty_world).
Proof. repeat split; reflexivity. Qed.

Lemma string_args_round_trip_witness :
  let self := constructed Demo.def_zero None None false true None None
                (Some ["alpha"; "beta"]) None None in
  Forall (fun s => plain_argument Demo.python3 s = true) (string_args self)
  /\ last (string_args self) <> Some ""
  /\ exists w',
       _write_string_args self "/tmp/venv0/string_args.txt" Demo.empty_world = (inr tt, w')
       /\ files w' !! "/tmp/venv0/string_args.txt" = Some (Py.join Py.nl (string_args self))
       /\ Script.read_string_args Demo.python3 (Py.join Py.nl (string_args self))
          = string_args self
       /\ (string_args self = [] -> files w' !! "/tmp/venv0/string_args.txt" = Some "").
Proof.
  intros self.
  assert (H1 : Forall (fun s => plain_argument Demo.python3 s = true) (string_args self))
    by (repeat constructor).
  assert (H2 : last (string_args self) <> Some "") by discriminate.
  split; [exact H1|]. split; [exact H2|].
  exact (string_args_round_trip Demo.python3 self "/tmp/venv0/string_args.txt"
           Demo.empty_world H1 H2).
Defined.

(** C3 as worded fails twice. Two bytes that pickle loads as [None] make
    [_read_result] return [None] for a file that is not empty; and a
    content that pickle refuses with an UnpicklingError, which is no
    ValueError, is raised without the diagnostic being logged. *)
Lemma read_result_none_for_content :
  String.length "N." = 2
  /\ fst (_read_result Demo.host zero_operator "/tmp/venv0/script.out" (with_output "N."))
     = inr VNone
  /\ fst (_read_result Demo.host zero_operator "/tmp/venv0/script.out" (with_output "?"))
     = inl (Pickle.UnpicklingError "invalid load key")
  /\ logs (snd (_read_result Demo.host zero_operator "/tmp/venv0/script.out"
                  (with_output "?"))) = [].
Proof. vm_compute. repeat split; reflexivity. Qed.

Lemma read_result_decodes_output_witness :
  let argv := ["/tmp/venv0/script.py"; "/tmp/venv0/script.in";
               "/tmp/venv0/script.out"; "/tmp/venv0/string_args.txt"] in
  let blob := String Pickle.PROTO (Pickle.byte 3 +:+ "K" +:+ Pickle.byte 0 +:+ ".") in
  nth_error argv 2 = Some "/tmp/venv0/script.out"
  /\ VInt 0 <> VNone
  /\ dump (module_codec Demo.python3 "pickle") (VInt 0) = inr blob
  /\ blob <> ""
  /\ load (pickle Demo.host) blob = inr (VInt 0)
  /\ exists w1 w2,
       Script.store Demo.python3 zero_operator argv (VInt 0) Demo.empty_world = (inr tt, w1)
       /\ files w1 !! "/tmp/venv0/script.out" = Some blob
       /\ _read_result Demo.host zero_operator "/tmp/venv0/script.out" w1 = (inr (VInt 0), w2).
Proof.
  intros argv blob.
  assert (H1 : nth_error argv 2 = Some "/tmp/venv0/script.out") by reflexivity.
  assert (H2 : VInt 0 <> VNone) by discriminate.
  assert (H3 : dump (module_codec Demo.python3 "pickle") (VInt 0) = inr blob) by reflexivity.
  assert (H4 : blob <> "") by discriminate.
  assert (H5 : load (pickle Demo.host) blob = inr (VInt 0)) by reflexivity.
  repeat (split; [assumption|]).
  exact (proj2 (proj2 (read_result_decodes_output Demo.host Demo.python3 zero_operator
                         "/tmp/venv0/script.out" Demo.empty_world))
           argv (VInt 0) blob H1 H2 H3 H4 H5).
Defined.



Lemma templates_dict_crosses_boundary_witness :
  let td : gmap string pyval := {["ds" := VStr "2018-01-01"]} in
  let self := constructed Demo.def_zero None (Some "2.7") false true None None None
                (Some td) None in
  plain_function Demo.def_zero = true
  /\ dill_missing false true None = false
  /\ other_major pickling_host "2.7" = true
  /\ td <> ∅
  /\ __init__ pickling_host Demo.def_zero None (Some "2.7") false true None None None
       (Some td) None Demo.empty_world = (inr self, Demo.empty_world)
  /\ _pass_op_args self = false
  /\ _pass_op_args (merge_templates_dict self) = true
  /\ dump (pickle pickling_host)
       (VDict (<["args" := VList []]>
                 (<["kwargs" := VDict {["templates_dict" := VDict td]}]> ∅)))
     = inr example_pickle
  /\ exists pre post code rest,
       trace (snd (execute_callable pickling_host self Demo.empty_world))
       = (trace Demo.empty_world ++ EMkdtemp "/tmp/venv0" :: pre
            ++ EOpen "/tmp/venv0/script.in" "wb"
            :: EWrite "/tmp/venv0/script.in" example_pickle :: post)%list
       /\ forallb is_spawn pre = true
       /\ post = EOpen "/tmp/venv0/script.py" "w"
                 :: EWrite "/tmp/venv0/script.py" code :: rest
       /\ nth_error (Py.split_lines code) 2 = Some (load_line "pickle").
Proof.
  intros td self.
  assert (H1 : plain_function Demo.def_zero = true) by reflexivity.
  assert (H2 : dill_missing false true None = false) by reflexivity.
  assert (H3 : "2.7" <> "") by discriminate.
  assert (H4 : td <> ∅) by (apply insert_non_empty).
  assert (H5 : dump (pickle pickling_host)
                 (VDict (<["args" := VList []]>
                           (<["kwargs" := VDict {["templates_dict" := VDict td]}]> ∅)))
               = inr example_pickle) by (vm_compute; reflexivity).
  pose proof (templates_dict_crosses_boundary pickling_host Demo.def_zero None "2.7"
                false true None td None Demo.empty_world H1 H2 H3 H4)
    as (Hi & Hp & _ & Hm & _ & _ & Hrun).
  repeat (split; [first [assumption | reflexivity]|]).
  destruct (Hrun Demo.empty_world example_pickle) as (pre & post & Htrace & Hpre & Hscript).
  - intros fs. exists "", fs. reflexivity.
  - intros _ fs. exists "", fs. reflexivity.
  - exact H5.
  - destruct (Hscript (PyFunction "zero"
                         (Some ("def zero():" +:+ Py.nl +:+ "    return 0" +:+ Py.nl)))
                ("def zero():" +:+ Py.nl +:+ "    return 0" +:+ Py.nl) eq_refl eq_refl)
      as (code & rest & Hpost & Hthird).
    exists pre, post, code, rest. repeat split; assumption.
Defined.


End Instances.

(** * Further properties *)

(** ** Running a command *)

Section Subprocess.
Import PythonVirtualenvOperator.
Context (P : Platform).

(** X1. [_execute_in_subprocess] logs the command, then runs it once. When
    the command ends with status 0 it returns, having logged the output
    unless it is empty; when it ends with another status it logs the output
    as error output and raises the CalledProcessError carrying status,
    command and output; when the command cannot be started the exception
    is raised with nothing more logged. The files are as the command left
    them, also when it failed. *)
Theorem subprocess_outcomes (self : t) (cmd : list string) (w : world) :
  let r := _execute_in_subprocess P self cmd w in
  trace (snd r) = (trace w ++ [ESpawn cmd])%list
  /\ match spawn P cmd (files w) with
     | inr (code, output, fs) =>
         files (snd r) = fs
         /\ (if (code =? 0)%Z
             then fst r = inr tt
                  /\ logs (snd r) =
                       (logs w ++ log_executing cmd ::
                          if String.eqb output "" then [] else [log_output output])%list
             else fst r = inl (CalledProcessError code cmd output)
                  /\ logs (snd r) =
                       (logs w ++ [log_executing cmd; log_error_output output])%list)
     | inl e =>
         fst r = inl e
         /\ files (snd r) = files w
         /\ match e with
            | CalledProcessError _ _ output =>
                logs (snd r) = (logs w ++ [log_executing cmd; log_error_output output])%list
            | _ => logs (snd r) = (logs w ++ [log_executing cmd])%list
            end
     end.
Proof.
  intros r. unfold r. rewrite subprocess_cases.
  destruct (spawn P cmd (files w)) as [e|[[code output] fs]].
  - simpl. repeat split. destruct e; reflexivity.
  - destruct (code =? 0)%Z; simpl; repeat split.
Qed.

End Subprocess.

(** ** The script file and its text *)

Section ScriptFile.
Import PythonVirtualenvOperator.

(** X2. For a function whose source [inspect.getsource] finds, the
    generated program is this text: the import of the pickling library and
    of sys, the line that loads or makes the arguments, their unpacking,
    the reading of the string arguments, the source of the function without
    its common indentation, the call by name and the dump of a result that
    is not [None] with the same library. Without a source no text is
    generated and the error of [inspect.getsource] is the outcome. *)
Theorem generated_program (self : t) (f : py_function) :
  python_callable self = ObjFunction f ->
  _generate_python_code self =
    match fn_source f with
    | Some src =>
        inr ("import " +:+ pickling_library self +:+ Py.nl +:+
             "import sys" +:+ Py.nl +:+
             load_args_line self +:+ Py.nl +:+
             "args = arg_dict[" +:+ Py.dq +:+ "args" +:+ Py.dq +:+ "]" +:+ Py.nl +:+
             "kwargs = arg_dict[" +:+ Py.dq +:+ "kwargs" +:+ Py.dq +:+ "]" +:+ Py.nl +:+
             "with open(sys.argv[3], 'r') as f:" +:+ Py.nl +:+
             "    virtualenv_string_args = list(map(lambda x: x.strip(), list(f)))" +:+ Py.nl +:+
             Py.dedent src +:+ Py.nl +:+
             "res = " +:+ __name__ f +:+ "(" +:+ "*args, **kwargs)" +:+ Py.nl +:+
             "with open(sys.argv[2], 'wb') as f:" +:+ Py.nl +:+
             "    res is not None and " +:+ pickling_library self +:+ ".dump(res, f)" +:+ Py.nl)
    | None => inl SourceNotFound
    end.
Proof.
  intros Hf. rewrite generate_python_code_text, Hf. simpl.
  destruct (fn_source f); reflexivity.
Qed.

(** X3. [_write_script] opens the script file before it generates the
    text: when the text is generated the file holds exactly it, whatever it
    held before, and the text is logged at debug level; when the generation
    fails the exception is raised, the file is left behind empty and
    nothing is logged. *)
Theorem write_script_outcomes (self : t) (path : string) (w : world) :
  let r := _write_script self path w in
  match _generate_python_code self with
  | inr code =>
      fst r = inr tt
      /\ files (snd r) !! path = Some code
      /\ trace (snd r) = (trace w ++ [EOpen path "w"; EWrite path code])%list
      /\ logs (snd r) = (logs w ++ [log_writing_code code])%list
  | inl e =>
      fst r = inl e
      /\ files (snd r) !! path = Some ""
      /\ trace (snd r) = (trace w ++ [EOpen path "w"])%list
      /\ logs (snd r) = logs w
  end
  /\ forall other, other <> path -> files (snd r) !! other = files w !! other.
Proof.
  intros r. unfold r. rewrite write_script_cases.
  destruct (_generate_python_code self); simpl;
    (split; [repeat split; apply lookup_insert_eq|]);
    intros other Hne; by apply lookup_insert_ne.
Qed.

End ScriptFile.

(** ** Construction and the merge of [templates_dict] *)

Section MoreConstruction.
Import PythonVirtualenvOperator.
Context (P : Platform).

(** X4. An empty [python_version] is not [None]: for a function made by
    [def] and with the dill requirement met, the construction ends with the
    IndexError of [str(python_version)[0]], with or without arguments, and
    not with an AirflowException. *)
Theorem empty_version_index_error pc reqs ud ssp oa ok sa td te w :
  plain_function pc = true ->
  dill_missing ud ssp reqs = false ->
  __init__ P pc reqs (Some "") ud ssp oa ok sa td te w
    = (inl (IndexError "string index out of range"), w).
Proof.
  intros Hpc Hd. rewrite init_checks.
  assert (Hc : callable pc = true) by (destruct pc; simpl in *; congruence).
  rewrite Hc, Hd, Hpc. reflexivity.
Qed.

(** X5. The merge that [execute_callable] makes puts [templates_dict]
    under the key "templates_dict" of the keyword arguments, replacing what
    a caller passed under that key and leaving every other key and each
    of the ten other fields of the operator alone; it changes nothing when
    [templates_dict] is [None] or empty; and merging twice is merging
    once. *)
Theorem merge_templates_dict_spec (self : t) :
  let merged := merge_templates_dict self in
  match templates_dict self with
  | Some td =>
      if decide (td = ∅) then merged = self
      else op_kwargs merged !! "templates_dict" = Some (VDict td)
           /\ forall key, key <> "templates_dict" ->
                          op_kwargs merged !! key = op_kwargs self !! key
  | None => merged = self
  end
  /\ python_callable merged = python_callable self
  /\ op_args merged = op_args self
  /\ provide_context merged = provide_context self
  /\ templates_dict merged = templates_dict self
  /\ template_ext merged = template_ext self
  /\ requirements merged = requirements self
  /\ string_args merged = string_args self
  /\ python_version merged = python_version self
  /\ use_dill merged = use_dill self
  /\ system_site_packages merged = system_site_packages self
  /\ merge_templates_dict merged = merged.
Proof.
  intros merged. unfold merged, merge_templates_dict.
  destruct (templates_dict self) as [td|] eqn:Htd.
  - destruct (decide (td = ∅)) as [->|Hne].
    + rewrite map_size_empty. simpl. rewrite Htd, map_size_empty. simpl.
      repeat split.
    + assert (Hs : (0 <? size td)%nat = true).
      { apply Nat.ltb_lt. destruct (size td) eqn:Hsz; [|lia].
        apply map_size_empty_iff in Hsz. congruence. }
      rewrite Hs. simpl. rewrite Hs.
      repeat split.
      * apply lookup_insert_eq.
      * intros key Hk. by apply lookup_insert_ne.
      * by rewrite insert_insert_eq.
  - rewrite Htd. repeat split.
Qed.

(** X19. The checks of the construction come in a fixed order, and the
    first that fails decides the error: an object that is not callable is
    refused by [PythonOperator.__init__] whatever the other arguments; for
    a callable the dill requirement is checked before the kind of the
    callable; and a callable that is no function made by [def] is refused
    with an exception of two arguments, the message with its placeholder
    left unfilled and the name of the class. *)
Theorem construction_first_error pc reqs pv ud ssp oa ok sa td te w :
  (callable pc = false ->
   __init__ P pc reqs pv ud ssp oa ok sa td te w
     = (inl (AirflowException ["`python_callable` param must be callable"]), w))
  /\ (callable pc = true ->
      dill_missing ud ssp reqs = true ->
      __init__ P pc reqs pv ud ssp oa ok sa td te w
        = (inl (AirflowException [dill_message]), w))
  /\ (callable pc = true ->
      dill_missing ud ssp reqs = false ->
      plain_function pc = false ->
      __init__ P pc reqs pv ud ssp oa ok sa td te w
        = (inl (AirflowException ["{} only supports functions for python_callable arg";
                                  "PythonVirtualenvOperator"]), w)).
Proof.
  rewrite init_checks. repeat split.
  - intros ->. reflexivity.
  - intros -> ->. reflexivity.
  - intros -> -> ->. reflexivity.
Qed.

End MoreConstruction.

(** ** The program *)

Section Program.
Import PythonVirtualenvOperator.
Context (I : Interp).

Lemma keeps_bind {A B} (path : string) (m : M A) (k : A -> M B) :
  keeps path m -> (forall a, keeps path (k a)) -> keeps path (bind m k).
Proof.
  intros Hm Hk w. unfold bind. specialize (Hm w).
  destruct (m w) as [[e|a] w1]; simpl in *; [exact Hm|].
  rewrite <- Hm. apply Hk.
Qed.

Lemma keeps_ret {A} (path : string) (a : A) : keeps path (ret a).
Proof. intros w. reflexivity. Qed.







End Program.

(** ** String arguments, trimmed *)

Section Trimmed.
Context (I : Interp).

Lemma strip_line_feed (white : ascii -> bool) (x : string) :
  white Py.LF = true -> Py.strip white (x +:+ Py.nl) = Py.strip white x.
Proof.
  intros Hlf. unfold Py.strip. induction x as [|c x IH].
  - simpl. by rewrite Hlf.
  - rewrite app_cons. cbn [Py.lstrip].
    destruct (white c); [exact IH|].
    rewrite <- app_cons. by apply rstrip_line_feed.
Qed.

Lemma line_argument_one_line (s : string) :
  line_argument s = true -> contains Py.LF s = false /\ contains Py.CR s = false.
Proof.
  unfold line_argument, one_line. intros H.
  apply andb_prop in H as [_ H]. apply andb_prop in H as [H1 H2].
  split; by apply negb_true_iff.
Qed.

Lemma lines_trimmed (white : ascii -> bool) (l : list string) :
  white Py.LF = true ->
  Forall (fun s => contains Py.LF s = false) l ->
  last l <> Some "" ->
  map (Py.strip white) (Py.iter_lines (Py.join Py.nl l)) = map (Py.strip white) l.
Proof.
  intros Hwhite. induction l as [|x l IH]; intros H Hlast; [reflexivity|].
  apply Forall_cons in H as [Hlf Hl].
  destruct l as [|y l].
  - change (Py.join Py.nl [x]) with x.
    rewrite iter_lines_single; [reflexivity | assumption | intros ->; by apply Hlast].
  - rewrite join_cons2, iter_lines_line by assumption.
    cbn [map]. rewrite strip_line_feed by assumption. f_equal.
    apply IH; [assumption | exact Hlast].
Qed.

(** X8. What the program finds in [virtualenv_string_args] are the string
    arguments with the white space at both ends removed, white space being
    what [strip] removes in the interpreter that runs the program (more
    characters in Python 3 than in Python 2): for ASCII strings without
    line feed or carriage return, the last of which is not empty, the list
    read from the file that [_write_string_args] wrote is the list of the
    trimmed strings. *)
Theorem string_args_arrive_trimmed (self : PythonVirtualenvOperator.t)
    (filename : string) (w : world) :
  Forall (fun s => line_argument s = true) (PythonVirtualenvOperator.string_args self) ->
  last (PythonVirtualenvOperator.string_args self) <> Some "" ->
  exists w' raw,
    PythonVirtualenvOperator._write_string_args self filename w = (inr tt, w')
    /\ files w' !! filename = Some raw
    /\ Script.read_string_args I raw
       = map (Py.strip (Script.isspace I)) (PythonVirtualenvOperator.string_args self).
Proof.
  intros Hall Hlast.
  assert (Hlf : Forall (fun s => contains Py.LF s = false)
                  (PythonVirtualenvOperator.string_args self)).
  { eapply Forall_impl; [exact Hall|]. intros s Hs. by apply line_argument_one_line. }
  assert (Hcr : contains Py.CR
                  (Py.join Py.nl (PythonVirtualenvOperator.string_args self)) = false).
  { apply join_no_cr. eapply Forall_impl; [exact Hall|].
    intros s Hs. by apply line_argument_one_line. }
  unfold PythonVirtualenvOperator._write_string_args, bind, open_w, write, emit, set_files.
  simpl. eexists. eexists. split; [reflexivity|]. simpl.
  rewrite map_id, !lookup_insert_eq. simpl. split; [reflexivity|].
  unfold Script.read_string_args, Script.decode_text.
  destruct (universal_newlines I); rewrite ?translate_no_cr by exact Hcr;
    apply lines_trimmed; first [apply isspace_line_feed | assumption].
Qed.

End Trimmed.

(** ** Failing and succeeding invocations *)

Section Invocation.
Import PythonVirtualenvOperator.
Context (P : Platform).

Lemma write_string_args_world (self : t) (path : string) (w : world) :
  _write_string_args self path w =
    (inr tt,
     World (<[path := Py.join Py.nl (string_args self)]> (files w))
           (trace w ++ [EOpen path "w"; EWrite path (Py.join Py.nl (string_args self))])
           (logs w) (temp_serial w)).
Proof.
  unfold _write_string_args, bind, open_w, write, emit, set_files. simpl.
  rewrite map_id, lookup_insert_eq, insert_insert_eq, <- app_assoc. reflexivity.
Qed.

Lemma merge_keeps_requirements (self : t) :
  requirements (merge_templates_dict self) = requirements self.
Proof.
  unfold merge_templates_dict.
  destruct (templates_dict self) as [td|]; [destruct (0 <? size td)%nat|]; reflexivity.
Qed.

(** X9. When the virtualenv command ends with a status other than 0, the
    invocation raises its CalledProcessError: the command has been logged
    with its output, nothing else has run and no file has been written, and
    the workspace has been removed from the files the command left. *)
Theorem environment_failure (self : t) (w : world) (code : Z) (output : string)
    (fs : gmap string string) :
  let tmp_dir := workspace_of w in
  let cmd := _generate_virtualenv_cmd (merge_templates_dict self) tmp_dir in
  spawn P cmd (files w) = inr (code, output, fs) ->
  code <> 0%Z ->
  execute_callable P self w =
    (inl (CalledProcessError code cmd output),
     World (rmtree tmp_dir fs)
           (trace w ++ [EMkdtemp tmp_dir; ESpawn cmd; ERmtree tmp_dir])
           (logs w ++ [log_executing cmd; log_error_output output])
           (S (temp_serial w))).
Proof.
  intros tmp_dir cmd Hspawn Hcode.
  rewrite execute_callable_in_workspace. unfold TemporaryDirectory.
  fold (workspace_of w). fold tmp_dir.
  unfold in_workspace. cbv zeta. fold cmd.
  erewrite bind_inl.
  2: { rewrite subprocess_cases. simpl. rewrite Hspawn.
       apply Z.eqb_neq in Hcode. rewrite Hcode. reflexivity. }
  unfold emit, set_files. simpl. rewrite <- !app_assoc. reflexivity.
Qed.

(** X10. When the virtualenv command succeeds and the pip command, run
    because there are requirements, ends with a status other than 0, the
    invocation raises the CalledProcessError of the pip command; the two
    commands are all that has run, no file has been written, and the
    workspace has been removed. *)
Theorem install_failure (self : t) (w : world) (out1 output : string) (code : Z)
    (fs1 fs2 : gmap string string) :
  let tmp_dir := workspace_of w in
  let venv := _generate_virtualenv_cmd (merge_templates_dict self) tmp_dir in
  let pip := (tmp_dir +:+ "/bin/pip") :: "install" :: requirements self in
  requirements self <> [] ->
  spawn P venv (files w) = inr (0%Z, out1, fs1) ->
  spawn P pip fs1 = inr (code, output, fs2) ->
  code <> 0%Z ->
  fst (execute_callable P self w) = inl (CalledProcessError code pip output)
  /\ trace (snd (execute_callable P self w))
     = (trace w ++ [EMkdtemp tmp_dir; ESpawn venv; ESpawn pip; ERmtree tmp_dir])%list
  /\ files (snd (execute_callable P self w)) = rmtree tmp_dir fs2.
Proof.
  intros tmp_dir venv pip Hreq Hvenv Hpip Hcode.
  assert (Hcmd : _generate_pip_install_cmd (merge_templates_dict self) tmp_dir = pip).
  { unfold _generate_pip_install_cmd. rewrite merge_keeps_requirements.
    unfold pip. destruct (requirements self); [congruence | reflexivity]. }
  assert (Hbody : exists w2,
             in_workspace P self tmp_dir
               (emit (EMkdtemp tmp_dir)
                  (World (files w) (trace w) (logs w) (S (temp_serial w))))
             = (inl (CalledProcessError code pip output), w2)
             /\ files w2 = fs2
             /\ trace w2 = (trace w ++ [EMkdtemp tmp_dir; ESpawn venv; ESpawn pip])%list).
  { unfold in_workspace. cbv zeta. fold venv. rewrite Hcmd.
    erewrite bind_inr.
    2: { rewrite subprocess_cases. simpl. rewrite Hvenv. reflexivity. }
    unfold pip at 1.
    erewrite bind_inl.
    2: { rewrite subprocess_cases. simpl. fold pip. rewrite Hpip.
         apply Z.eqb_neq in Hcode. rewrite Hcode. reflexivity. }
    eexists. split; [reflexivity|]. simpl. rewrite <- !app_assoc. split; reflexivity. }
  destruct Hbody as (w2 & Hbody & Hfiles & Htrace).
  rewrite execute_callable_in_workspace. unfold TemporaryDirectory.
  fold (workspace_of w). fold tmp_dir. rewrite Hbody. simpl.
  rewrite Hfiles, Htrace, <- !app_assoc. repeat split.
Qed.







End Invocation.

Section EndToEnd.
Import PythonVirtualenvOperator.
Context (P : Platform) (I : Interp).








End EndToEnd.

(** ** The workspace *)

Section Workspace.
Import PythonVirtualenvOperator.
Context (P : Platform).

Lemma digits_end (x : N) (s : string) :
  s <> "" /\ Py.ends_with_slash s = false ->
  pretty_N_go x s <> "" /\ Py.ends_with_slash (pretty_N_go x s) = false.
Proof.
  revert s. induction (N.lt_wf_0 x) as [x _ IH]; intros s [Hne Hs].
  assert (x = 0 \/ 0 < x)%N as [->|Hpos] by lia.
  - rewrite pretty_N_go_0. by split.
  - rewrite pretty_N_go_step by done. apply IH.
    + by apply N.div_lt.
    + split; [discriminate|]. destruct s; [congruence | exact Hs].
Qed.

Lemma pretty_nat_end (n : nat) :
  pretty n <> "" /\ Py.ends_with_slash (pretty n) = false.
Proof.
  unfold pretty, pretty_nat, pretty, pretty_N.
  destruct (decide (N.of_nat n = 0%N)) as [_|Hn]; [by split|].
  rewrite pretty_N_go_step by lia. apply digits_end.
  split; [discriminate|]. simpl.
  unfold pretty_N_char. repeat case_match; reflexivity.
Qed.

Lemma ends_with_slash_app (a b : string) :
  b <> "" -> Py.ends_with_slash (a +:+ b) = Py.ends_with_slash b.
Proof.
  intros Hb. induction a as [|c a IH]; [reflexivity|].
  rewrite app_cons. simpl.
  destruct (a +:+ b) eqn:Hab; [|exact IH].
  destruct a; [change (b = "") in Hab; congruence | discriminate].
Qed.

Lemma workspace_no_slash (w : world) :
  workspace_of w <> "" /\ Py.ends_with_slash (workspace_of w) = false.
Proof.
  split; [discriminate|].
  unfold workspace_of, Py.str_of_nat.
  destruct (pretty_nat_end (temp_serial w)) as [Hne Hs].
  rewrite !ends_with_slash_app; try assumption.
  destruct (pretty (temp_serial w)); [congruence | discriminate].
Qed.

Lemma prefix_app (p s : string) : String.prefix p (p +:+ s) = true.
Proof.
  induction p as [|c p IH]; [by destruct s|].
  rewrite app_cons. simpl. destruct (ascii_dec c c); [exact IH | congruence].
Qed.

Lemma workspace_file_under (w : world) (name : string) :
  Py.startswith name "/" = false ->
  Py.path_join (workspace_of w) name = workspace_of w +:+ "/" +:+ name
  /\ under (workspace_of w) (Py.path_join (workspace_of w) name) = true.
Proof.
  intros Hname. destruct (workspace_no_slash w) as [Hne Hs].
  assert (Hj : Py.path_join (workspace_of w) name = workspace_of w +:+ "/" +:+ name).
  { unfold Py.path_join. rewrite Hname, Hs.
    destruct (workspace_of w); [congruence | reflexivity]. }
  split; [exact Hj|].
  rewrite Hj. unfold under, Py.startswith.
  rewrite <- (app_assoc_s (workspace_of w) "/" name). apply prefix_app.
Qed.

Lemma rmtree_outside (dir path : string) (fs : gmap string string) :
  under dir path = false -> rmtree dir fs !! path = fs !! path.
Proof.
  intros Hu. unfold rmtree. destruct (fs !! path) as [data|] eqn:Hf.
  - apply map_lookup_filter_Some. split; [exact Hf | exact Hu].
  - apply map_lookup_filter_None. by left.
Qed.

(** X12. What an invocation itself writes, it writes inside its workspace:
    a file outside the workspace directory that the spawned commands leave
    alone is, after the invocation, as it was before, whether the
    invocation returned or raised. *)
Theorem writes_stay_in_workspace (self : t) (w : world) (path : string) :
  under (workspace_of w) path = false ->
  (forall cmd fs code out fs',
      spawn P cmd fs = inr (code, out, fs') -> fs' !! path = fs !! path) ->
  files (snd (execute_callable P self w)) !! path = files w !! path.
Proof.
  intros Hout Hspawn.
  assert (Hexec : forall self cmd, keeps path (_execute_in_subprocess P self cmd)).
  { intros self0 cmd w0. rewrite subprocess_cases.
    destruct (spawn P cmd (files w0)) as [e|[[code out] fs']] eqn:Hs; [reflexivity|].
    destruct (code =? 0)%Z; simpl; eapply Hspawn; eassumption. }
  assert (Hfile : forall name, Py.startswith name "/" = false ->
                               Py.path_join (workspace_of w) name <> path).
  { intros name Hname Heq.
    destruct (workspace_file_under w name Hname) as [_ Hu]. congruence. }
  rewrite execute_callable_in_workspace. unfold TemporaryDirectory.
  fold (workspace_of w).
  set (w0 := emit (EMkdtemp (workspace_of w)) _).
  assert (Hbody : keeps path (in_workspace P self (workspace_of w))).
  { unfold in_workspace. cbv zeta.
    apply keeps_bind; [apply Hexec | intros _].
    apply keeps_bind; [destruct (_generate_pip_install_cmd _ _);
                       [apply keeps_ret | apply Hexec] | intros _].
    apply keeps_bind; [| intros _].
    { intros w1. rewrite write_args_world.
      destruct (_pass_op_args _); [|reflexivity].
      destruct (dump _ _); simpl; apply lookup_insert_ne, Hfile; reflexivity. }
    apply keeps_bind; [| intros _].
    { intros w1. rewrite write_script_cases.
      destruct (_generate_python_code _); simpl;
        apply lookup_insert_ne, Hfile; reflexivity. }
    apply keeps_bind; [| intros _].
    { intros w1. rewrite write_string_args_world. simpl.
      apply lookup_insert_ne, Hfile; reflexivity. }
    apply keeps_bind; [apply Hexec | intros _].
    intros w1. rewrite read_result_cases.
    destruct (files w1 !! _) as [data|]; [|reflexivity].
    destruct (String.length data =? 0)%nat; [reflexivity|].
    simpl. destruct (load _ _) as [e|v]; [destruct (is_ValueError e)|]; reflexivity. }
  specialize (Hbody w0).
  destruct (in_workspace P self (workspace_of w) w0) as [r w2].
  simpl in *. rewrite rmtree_outside by assumption. exact Hbody.
Qed.

End Workspace.

(** ** The operators of the scheduler *)

Section SchedulerOperators.
Context {O : Objects} (C : Collaborators O).

Lemma execute_cases (self : Running.t O) (context : gmap string (entry O)) (w : world) :
  Running.execute C self context w =
    let kwargs :=
      if Running.provide_context self
      then <["templates_dict" := Running.templates_value self]>
             (Running.op_kwargs self ∪ context)
      else Running.op_kwargs self in
    match call C (Running.python_callable self) (Running.op_args self) kwargs w with
    | (inr v, w') =>
        (inr (v, (if Running.provide_context self
                  then (Running.set_op_kwargs self kwargs, kwargs)
                  else (self, context))),
         add_log (log_returned v) w')
    | (inl e, w') => (inl e, w')
    end.
Proof.
  unfold Running.execute, Running.execute_callable, bind, log, ret.
  destruct (Running.provide_context self); simpl;
    destruct (call C _ _ _ w) as [[e|v] w']; reflexivity.
Qed.

(** X13. With [provide_context], [PythonOperator.execute] calls the
    callable with the context as keyword arguments, after the operator's
    own keyword arguments have been written over it and [templates_dict]
    put under its key: "templates_dict" holds the operator's
    [templates_dict] whatever the context or the keyword arguments held
    there, any other key of the keyword arguments holds their value, and
    the remaining keys hold what the context held. The caller's context
    and the operator's keyword arguments are this same dict afterwards.
    Without [provide_context] the callable gets the keyword arguments alone
    and the context is left as it was. *)
Theorem context_reaches_callable (self : Running.t O) (context : gmap string (entry O))
    (w : world) :
  exists kwargs,
    Running.execute C self context w =
      match call C (Running.python_callable self) (Running.op_args self) kwargs w with
      | (inr v, w') =>
          (inr (v, (if Running.provide_context self
                    then (Running.set_op_kwargs self kwargs, kwargs)
                    else (self, context))),
           add_log (log_returned v) w')
      | (inl e, w') => (inl e, w')
      end
    /\ if Running.provide_context self then
         kwargs !! "templates_dict" = Some (Running.templates_value self)
         /\ forall key, key <> "templates_dict" ->
              kwargs !! key =
                match Running.op_kwargs self !! key with
                | Some e => Some e
                | None => context !! key
                end
       else kwargs = Running.op_kwargs self.
Proof.
  eexists. split; [apply execute_cases|].
  destruct (Running.provide_context self); [|reflexivity].
  split; [apply lookup_insert_eq|].
  intros key Hkey. rewrite lookup_insert_ne by congruence.
  rewrite lookup_union. destruct (Running.op_kwargs self !! key), (context !! key); reflexivity.
Qed.

Lemma branch_cases (self self' : Running.t O) (context context' : gmap string (entry O))
    (branch : pyval) (w w1 : world) :
  Running.execute C self context w = (inr (branch, (self', context')), w1) ->
  BranchPythonOperator.execute C self context w =
    match the_task context' "task" with
    | inl e => (inl e, branch_announced branch w1)
    | inr this =>
        let w2 := add_log (LogRecord "debug" "Downstream task_ids %s"
                             (LCmd (map (task_id C) (downstream_list C this))))
                    (branch_announced branch w1) in
        match the_dag context' "dag" with
        | inl e => (inl e, w2)
        | inr d =>
            match get_task C d branch with
            | inl e => (inl e, w2)
            | inr branch_task =>
                let skipped := to_skip C branch (downstream_list C this)
                                 (downstream_list C branch_task) in
                let w3 := branch_listed (map (task_id C) (downstream_list C this))
                            (map (task_id C) skipped) (branch_announced branch w1) in
                match downstream_list C this with
                | [] => (inr VNone, add_log log_done w3)
                | _ :: _ =>
                    match item context' "dag_run" with
                    | inl e => (inl e, w3)
                    | inr run =>
                        match the_task_instance context' "ti" with
                        | inl e => (inl e, w3)
                        | inr ti =>
                            match skip C run (execution_date C ti) skipped w3 with
                            | (inr _, w4) => (inr VNone, add_log log_done w4)
                            | (inl e, w4) => (inl e, w4)
                            end
                        end
                    end
                end
            end
        end
    end.
Proof.
  intros Hexec. unfold BranchPythonOperator.execute.
  unfold bind at 1. rewrite Hexec.
  unfold bind, log, lift, ret, branch_announced, branch_listed, to_skip. simpl.
  destruct (the_task context' "task") as [e|this]; [reflexivity|]. simpl.
  destruct (the_dag context' "dag") as [e|d]; [reflexivity|]. simpl.
  destruct (get_task C d branch) as [e|bt]; [reflexivity|]. simpl.
  destruct (downstream_list C this) as [|t0 rest] eqn:Hdown; [reflexivity|].
  destruct (item context' "dag_run") as [e|run]; [reflexivity|]. simpl.
  destruct (the_task_instance context' "ti") as [e|ti]; [reflexivity|]. simpl.
  destruct (skip C run _ _ _) as [[e|[]] w4]; reflexivity.
Qed.

(** X14. When the callable has returned the branch and the task has tasks
    directly downstream, [BranchPythonOperator.execute] calls [skip] once,
    with the DAG run, the execution date of the task instance, and these
    tasks: the directly downstream ones, in their order, except those
    whose id is the branch and those whose id is found among the tasks
    downstream of the branch. The task of the branch is never among them.
    The method returns [None], or raises what [skip] raises. *)
Theorem branch_skips_others (self self' : Running.t O)
    (context context' : gmap string (entry O)) (branch : pyval) (w w1 : world)
    (this branch_task : task O) (d : dag O) (run : entry O) (ti : task_instance O) :
  Running.execute C self context w = (inr (branch, (self', context')), w1) ->
  context' !! "task" = Some (TaskObject this) ->
  context' !! "dag" = Some (DagObject d) ->
  get_task C d branch = inr branch_task ->
  downstream_list C this <> [] ->
  context' !! "dag_run" = Some run ->
  context' !! "ti" = Some (TaskInstanceObject ti) ->
  exists skipped w2,
    only_logged w1 w2
    /\ BranchPythonOperator.execute C self context w =
         match skip C run (execution_date C ti) skipped w2 with
         | (inr _, w3) => (inr VNone, add_log log_done w3)
         | (inl e, w3) => (inl e, w3)
         end
    /\ skipped `sublist_of` downstream_list C this
    /\ (forall t, t ∈ skipped <->
                  t ∈ downstream_list C this
                  /\ str_ne (task_id C t) branch = true
                  /\ str_in_tasks C (task_id C t) (downstream_list C branch_task) = false)
    /\ (forall t, t ∈ skipped -> branch <> VStr (task_id C t)).
Proof.
  intros Hexec Htask Hdag Hget Hdown Hrun Hti.
  exists (to_skip C branch (downstream_list C this) (downstream_list C branch_task)).
  exists (branch_listed (map (task_id C) (downstream_list C this))
            (map (task_id C)
               (to_skip C branch (downstream_list C this) (downstream_list C branch_task)))
            (branch_announced branch w1)).
  split; [|split].
  2: { rewrite (branch_cases _ _ _ _ _ _ _ Hexec).
       unfold the_task, the_dag, item, the_task_instance.
       rewrite Htask, Hdag, Hget, Hrun, Hti. cbv zeta.
       destruct (downstream_list C this) eqn:Hd; [congruence | reflexivity]. }
  { unfold only_logged, branch_listed, branch_announced. simpl.
    repeat split. eexists. rewrite <- !app_assoc. reflexivity. }
  assert (Hin : forall t,
             t ∈ to_skip C branch (downstream_list C this) (downstream_list C branch_task) <->
             t ∈ downstream_list C this
             /\ str_ne (task_id C t) branch = true
             /\ str_in_tasks C (task_id C t) (downstream_list C branch_task) = false).
  { intros t. unfold to_skip. rewrite !list_elem_of_filter. tauto. }
  split; [|split].
  - unfold to_skip. etrans; apply sublist_filter.
  - exact Hin.
  - intros t Ht Hb. apply Hin in Ht as (_ & Hne & _).
    rewrite Hb in Hne. simpl in Hne. rewrite String.eqb_refl in Hne. discriminate.
Qed.

(** X15. When the task has no task directly downstream,
    [BranchPythonOperator.execute] skips nothing and returns [None]: after
    the callable it only logs, and it reads neither the DAG run nor the
    task instance from the context. The branch must name a task of the DAG
    all the same: when [get_task] raises, with or without tasks downstream,
    the method raises that error and has skipped nothing. *)
Theorem branch_without_downstream (self self' : Running.t O)
    (context context' : gmap string (entry O)) (branch : pyval) (w w1 : world)
    (this : task O) (d : dag O) :
  Running.execute C self context w = (inr (branch, (self', context')), w1) ->
  context' !! "task" = Some (TaskObject this) ->
  context' !! "dag" = Some (DagObject d) ->
  match get_task C d branch with
  | inr _ =>
      downstream_list C this = [] ->
      exists w2, BranchPythonOperator.execute C self context w = (inr VNone, w2)
                 /\ only_logged w1 w2
  | inl e =>
      exists w2, BranchPythonOperator.execute C self context w = (inl e, w2)
                 /\ only_logged w1 w2
  end.
Proof.
  intros Hexec Htask Hdag.
  rewrite (branch_cases _ _ _ _ _ _ _ Hexec).
  unfold the_task, the_dag. rewrite Htask, Hdag. cbv zeta.
  destruct (get_task C d branch) as [e|bt].
  - eexists. split; [reflexivity|].
    unfold only_logged, branch_announced. simpl. repeat split.
    eexists. rewrite <- !app_assoc. reflexivity.
  - intros Hdown. rewrite Hdown. eexists. split; [reflexivity|].
    unfold only_logged, branch_listed, branch_announced. simpl. repeat split.
    eexists. rewrite <- !app_assoc. reflexivity.
Qed.

Lemma short_circuit_cases (self self' : Running.t O)
    (context context' : gmap string (entry O)) (condition : pyval) (w w1 : world) :
  Running.execute C self context w = (inr (condition, (self', context')), w1) ->
  ShortCircuitOperator.execute C self context w =
    if truthy C condition then
      (inr VNone, add_log log_proceeding (condition_logged condition w1))
    else
      match the_task context' "task" with
      | inl e =>
          (inl e, add_log (LogRecord "info" "Skipping downstream tasks..." LNothing)
                    (condition_logged condition w1))
      | inr this =>
          let w2 := skipping_logged (map (task_id C) (get_flat_relatives C this false))
                      (condition_logged condition w1) in
          match get_flat_relatives C this false with
          | [] => (inr VNone, add_log log_done w2)
          | _ :: _ =>
              match item context' "dag_run" with
              | inl e => (inl e, w2)
              | inr run =>
                  match the_task_instance context' "ti" with
                  | inl e => (inl e, w2)
                  | inr ti =>
                      match skip C run (execution_date C ti)
                              (get_flat_relatives C this false) w2 with
                      | (inr _, w3) => (inr VNone, add_log log_done w3)
                      | (inl e, w3) => (inl e, w3)
                      end
                  end
              end
          end
      end.
Proof.
  intros Hexec. unfold ShortCircuitOperator.execute.
  unfold bind at 1. rewrite Hexec.
  unfold bind at 1. unfold log at 1. cbv beta iota.
  fold (condition_logged condition w1).
  destruct (truthy C condition); [reflexivity|].
  unfold bind, log, lift, ret, skipping_logged. simpl.
  destruct (the_task context' "task") as [e|this]; [reflexivity|]. simpl.
  destruct (get_flat_relatives C this false) as [|t0 rest] eqn:Hdown; [reflexivity|].
  destruct (item context' "dag_run") as [e|run]; [reflexivity|]. simpl.
  destruct (the_task_instance context' "ti") as [e|ti]; [reflexivity|]. simpl.
  destruct (skip C run _ _ _) as [[e|[]] w4]; reflexivity.
Qed.

(** X16. When the result of the callable is true as a condition,
    [ShortCircuitOperator.execute] returns [None] having only logged: it
    skips nothing and reads nothing from the context, which may lack the
    task, the DAG run and the task instance. *)
Theorem truthy_condition_proceeds (self self' : Running.t O)
    (context context' : gmap string (entry O)) (condition : pyval) (w w1 : world) :
  Running.execute C self context w = (inr (condition, (self', context')), w1) ->
  truthy C condition = true ->
  exists w2,
    ShortCircuitOperator.execute C self context w = (inr VNone, w2)
    /\ only_logged w1 w2
    /\ last (logs w2) = Some log_proceeding.
Proof.
  intros Hexec Htrue.
  rewrite (short_circuit_cases _ _ _ _ _ _ _ Hexec), Htrue.
  eexists. split; [reflexivity|]. split.
  - unfold only_logged, condition_logged. simpl. repeat split.
    eexists. rewrite <- !app_assoc. reflexivity.
  - simpl. apply last_snoc.
Qed.

(** X17. When the result of the callable is false as a condition ([None]
    as well as [False], 0 and what is empty), [ShortCircuitOperator.execute]
    takes every task downstream of the task, however far, from
    [get_flat_relatives(upstream=False)]. With such tasks it calls [skip]
    once with the DAG run, the execution date of the task instance and all
    of them, and returns [None] or raises what [skip] raises; without any
    it returns [None] having only logged, and reads neither the DAG run nor
    the task instance. *)
Theorem falsy_condition_skips_downstream (self self' : Running.t O)
    (context context' : gmap string (entry O)) (condition : pyval) (w w1 : world)
    (this : task O) :
  Running.execute C self context w = (inr (condition, (self', context')), w1) ->
  truthy C condition = false ->
  context' !! "task" = Some (TaskObject this) ->
  match get_flat_relatives C this false with
  | [] =>
      exists w2,
        ShortCircuitOperator.execute C self context w = (inr VNone, w2)
        /\ only_logged w1 w2
  | t :: rest =>
      forall (run : entry O) (ti : task_instance O),
        context' !! "dag_run" = Some run ->
        context' !! "ti" = Some (TaskInstanceObject ti) ->
        exists w2,
          only_logged w1 w2
          /\ ShortCircuitOperator.execute C self context w =
               match skip C run (execution_date C ti) (t :: rest) w2 with
               | (inr _, w3) => (inr VNone, add_log log_done w3)
               | (inl e, w3) => (inl e, w3)
               end
  end.
Proof.
  intros Hexec Hfalse Htask.
  rewrite (short_circuit_cases _ _ _ _ _ _ _ Hexec), Hfalse.
  unfold the_task. rewrite Htask. cbv zeta.
  destruct (get_flat_relatives C this false) as [|t rest].
  - eexists. split; [reflexivity|].
    unfold only_logged, skipping_logged, condition_logged. simpl. repeat split.
    eexists. rewrite <- !app_assoc. reflexivity.
  - intros run ti Hrun Hti. unfold item, the_task_instance. rewrite Hrun, Hti.
    eexists. split; [|reflexivity].
    unfold only_logged, skipping_logged, condition_logged. simpl. repeat split.
    eexists. rewrite <- !app_assoc. reflexivity.
Qed.

(** X18. When the callable raises, [PythonOperator.execute] raises the
    same exception and so do the [execute] of [BranchPythonOperator] and of
    [ShortCircuitOperator]: the world is as the callable left it, nothing
    has been logged after the call and nothing skipped. *)
Theorem callable_error_propagates (self : Running.t O)
    (context : gmap string (entry O)) (w w' : world) (e : exn) :
  call C (Running.python_callable self) (Running.op_args self)
    (call_kwargs self context) w = (inl e, w') ->
  Running.execute C self context w = (inl e, w')
  /\ BranchPythonOperator.execute C self context w = (inl e, w')
  /\ ShortCircuitOperator.execute C self context w = (inl e, w').
Proof.
  intros Hcall.
  assert (Hexec : Running.execute C self context w = (inl e, w')).
  { rewrite execute_cases. cbv zeta. fold (call_kwargs self context).
    rewrite Hcall. reflexivity. }
  split; [exact Hexec|].
  unfold BranchPythonOperator.execute, ShortCircuitOperator.execute.
  split; unfold bind at 1; rewrite Hexec; reflexivity.
Qed.

(** X21. With [provide_context] the operator keeps the dict of the
    context as its keyword arguments, so the context of one execution
    stays with the operator: when the operator, as the first execution
    left it, is executed again with another context, the callable is called
    with keyword arguments that hold, under every key that the dict of the
    first execution had, the value it had there; the new context only
    adds the keys that were missing. *)
Theorem context_kept_across_executions (self self1 : Running.t O)
    (c1 c1' c2 : gmap string (entry O)) (v : pyval) (w w1 w2 : world) :
  Running.provide_context self = true ->
  Running.execute C self c1 w = (inr (v, (self1, c1')), w1) ->
  exists kwargs,
    Running.execute C self1 c2 w2 =
      match call C (Running.python_callable self) (Running.op_args self) kwargs w2 with
      | (inr v', w') =>
          (inr (v', (Running.set_op_kwargs self1 kwargs, kwargs)),
           add_log (log_returned v') w')
      | (inl e, w') => (inl e, w')
      end
    /\ (forall key e, c1 !! key = Some e -> is_Some (c1' !! key))
    /\ (forall key e, c1' !! key = Some e -> kwargs !! key = Some e)
    /\ (forall key, c1' !! key = None -> kwargs !! key = c2 !! key).
Proof.
  intros Hp Hexec. rewrite execute_cases, Hp in Hexec. cbv zeta in Hexec.
  destruct (call C _ _ _ w) as [[e|v'] w']; [discriminate|].
  injection Hexec as _ Hself Hc _. subst self1 c1'.
  set (c := <["templates_dict" := Running.templates_value self]>
              (Running.op_kwargs self ∪ c1)).
  exists (<["templates_dict" := Running.templates_value self]> (c ∪ c2)).
  split; [|split; [|split]].
  - rewrite execute_cases. simpl. rewrite Hp. reflexivity.
  - intros key e He. unfold c.
    destruct (decide (key = "templates_dict")) as [->|Hne].
    + rewrite lookup_insert_eq. eauto.
    + rewrite lookup_insert_ne by congruence. rewrite lookup_union.
      rewrite He. destruct (Running.op_kwargs self !! key); simpl; eauto.
  - intros key e He.
    destruct (decide (key = "templates_dict")) as [->|Hne].
    + rewrite lookup_insert_eq. unfold c in He. rewrite lookup_insert_eq in He. exact He.
    + rewrite lookup_insert_ne by congruence. by apply lookup_union_Some_l.
  - intros key Hnone.
    destruct (decide (key = "templates_dict")) as [->|Hne].
    + unfold c in Hnone. rewrite lookup_insert_eq in Hnone. discriminate.
    + rewrite lookup_insert_ne by congruence. rewrite lookup_union, Hnone.
      destruct (c2 !! key); reflexivity.
Qed.

End SchedulerOperators.

(** ** Instances of the further properties *)

Section MoreInstances.
Import PythonVirtualenvOperator.

Lemma generated_program_witness :
  python_callable count_operator = ObjFunction def_count
  /\ _generate_python_code count_operator =
       inr ("import pickle" +:+ Py.nl +:+
            "import sys" +:+ Py.nl +:+
            "arg_dict = {" +:+ Py.dq +:+ "args" +:+ Py.dq +:+ ": [], " +:+
              Py.dq +:+ "kwargs" +:+ Py.dq +:+ ": {}}" +:+ Py.nl +:+
            "args = arg_dict[" +:+ Py.dq +:+ "args" +:+ Py.dq +:+ "]" +:+ Py.nl +:+
            "kwargs = arg_dict[" +:+ Py.dq +:+ "kwargs" +:+ Py.dq +:+ "]" +:+ Py.nl +:+
            "with open(sys.argv[3], 'r') as f:" +:+ Py.nl +:+
            "    virtualenv_string_args = list(map(lambda x: x.strip(), list(f)))" +:+ Py.nl +:+
            "def count():" +:+ Py.nl +:+
            "    return len(virtualenv_string_args)" +:+ Py.nl +:+ Py.nl +:+
            "res = count(" +:+ "*args, **kwargs)" +:+ Py.nl +:+
            "with open(sys.argv[2], 'wb') as f:" +:+ Py.nl +:+
            "    res is not None and pickle.dump(res, f)" +:+ Py.nl).
Proof.
  split; [reflexivity|].
  exact (generated_program count_operator def_count eq_refl).
Defined.

Lemma empty_version_index_error_witness :
  plain_function Demo.def_zero = true
  /\ dill_missing false true None = false
  /\ __init__ Demo.host Demo.def_zero None (Some "") false true
       (Some [VInt 2]) None None None None Demo.empty_world
     = (inl (IndexError "string index out of range"), Demo.empty_world).
Proof.
  split; [reflexivity|]. split; [reflexivity|].
  apply (empty_version_index_error Demo.host Demo.def_zero None false true
           (Some [VInt 2]) None None None None Demo.empty_world); reflexivity.
Defined.

Lemma construction_first_error_witness :
  (callable (ObjOther (VInt 3)) = false
   /\ __init__ Demo.host (ObjOther (VInt 3)) None None true false None None None None None
        Demo.empty_world
      = (inl (AirflowException ["`python_callable` param must be callable"]),
         Demo.empty_world))
  /\ (callable Demo.a_lambda = true
      /\ dill_missing true false None = true
      /\ __init__ Demo.host Demo.a_lambda None None true false None None None None None
           Demo.empty_world
         = (inl (AirflowException [dill_message]), Demo.empty_world))
  /\ (callable (ObjCallable "len") = true
      /\ dill_missing false true None = false
      /\ plain_function (ObjCallable "len") = false
      /\ __init__ Demo.host (ObjCallable "len") None None false true None None None None None
           Demo.empty_world
         = (inl (AirflowException ["{} only supports functions for python_callable arg";
                                   "PythonVirtualenvOperator"]), Demo.empty_world)).
Proof.
  split; [|split].
  - split; [reflexivity|].
    apply (proj1 (construction_first_error Demo.host (ObjOther (VInt 3)) None None true false
                    None None None None None Demo.empty_world)).
    reflexivity.
  - split; [reflexivity|]. split; [reflexivity|].
    apply (proj1 (proj2 (construction_first_error Demo.host Demo.a_lambda None None true false
                           None None None None None Demo.empty_world)));
      reflexivity.
  - split; [reflexivity|]. split; [reflexivity|]. split; [reflexivity|].
    apply (proj2 (proj2 (construction_first_error Demo.host (ObjCallable "len") None None
                           false true None None None None None Demo.empty_world)));
      reflexivity.
Defined.



Lemma string_args_arrive_trimmed_witness :
  Forall (fun s => line_argument s = true) (string_args count_operator)
  /\ last (string_args count_operator) <> Some ""
  /\ exists w' raw,
       _write_string_args count_operator "/tmp/venv0/string_args.txt" Demo.empty_world
         = (inr tt, w')
       /\ files w' !! "/tmp/venv0/string_args.txt" = Some raw
       /\ Script.read_string_args Demo.python3 raw = ["alpha"; "beta"].
Proof.
  assert (H1 : Forall (fun s => line_argument s = true) (string_args count_operator))
    by (repeat constructor).
  assert (H2 : last (string_args count_operator) <> Some "") by discriminate.
  split; [exact H1|]. split; [exact H2|].
  exact (string_args_arrive_trimmed Demo.python3 count_operator
           "/tmp/venv0/string_args.txt" Demo.empty_world H1 H2).
Defined.

Lemma environment_failure_witness :
  let cmd := ["virtualenv"; "/tmp/venv0"; "--system-site-packages"] in
  spawn broken_host cmd ∅ = inr (1%Z, "virtualenv: command not found", ∅)
  /\ execute_callable broken_host zero_operator Demo.empty_world =
       (inl (CalledProcessError 1 cmd "virtualenv: command not found"),
        World (rmtree "/tmp/venv0" ∅)
              [EMkdtemp "/tmp/venv0"; ESpawn cmd; ERmtree "/tmp/venv0"]
              [log_executing cmd; log_error_output "virtualenv: command not found"]
              1).
Proof.
  intros cmd. split; [reflexivity|].
  apply (environment_failure broken_host zero_operator Demo.empty_world 1
           "virtualenv: command not found" ∅); [reflexivity | discriminate].
Defined.

Lemma install_failure_witness :
  let venv := ["virtualenv"; "/tmp/venv0"; "--system-site-packages"] in
  let pip := ["/tmp/venv0/bin/pip"; "install"; "numpy"] in
  requirements numpy_operator <> []
  /\ spawn offline_host venv ∅ = inr (0%Z, "", ∅)
  /\ spawn offline_host pip ∅ = inr (1%Z, "No matching distribution found", ∅)
  /\ fst (execute_callable offline_host numpy_operator Demo.empty_world)
     = inl (CalledProcessError 1 pip "No matching distribution found")
  /\ trace (snd (execute_callable offline_host numpy_operator Demo.empty_world))
     = [EMkdtemp "/tmp/venv0"; ESpawn venv; ESpawn pip; ERmtree "/tmp/venv0"]
  /\ files (snd (execute_callable offline_host numpy_operator Demo.empty_world))
     = rmtree "/tmp/venv0" ∅.
Proof.
  intros venv pip.
  split; [discriminate|]. split; [reflexivity|]. split; [reflexivity|].
  apply (install_failure offline_host numpy_operator Demo.empty_world ""
           "No matching distribution found" 1 ∅ ∅);
    [discriminate | reflexivity | reflexivity | discriminate].
Defined.


Lemma writes_stay_in_workspace_witness :
  let w := World {["/etc/hosts" := "localhost"]} [] [] 0 in
  under (workspace_of w) "/etc/hosts" = false
  /\ (forall cmd fs code out fs',
        spawn Demo.host cmd fs = inr (code, out, fs') ->
        fs' !! "/etc/hosts" = fs !! "/etc/hosts")
  /\ files (snd (execute_callable Demo.host zero_operator w)) !! "/etc/hosts"
     = files w !! "/etc/hosts".
Proof.
  intros w.
  assert (H1 : under (workspace_of w) "/etc/hosts" = false) by reflexivity.
  assert (H2 : forall cmd fs code out fs',
             spawn Demo.host cmd fs = inr (code, out, fs') ->
             fs' !! "/etc/hosts" = fs !! "/etc/hosts").
  { intros cmd fs code out fs' H. simpl in H. injection H as _ _ ->. reflexivity. }
  split; [exact H1|]. split; [exact H2|].
  exact (writes_stay_in_workspace Demo.host zero_operator w "/etc/hosts" H1 H2).
Defined.

Lemma branch_skips_others_witness :
  let C := Fork.collaborators in
  let self := Fork.operator "choose" in
  let context := Fork.context "start" in
  let w1 := add_log (log_returned (VStr "a")) Demo.empty_world in
  Running.execute C self context Demo.empty_world = (inr (VStr "a", (self, context)), w1)
  /\ context !! "task" = Some (@TaskObject Fork.objects "start")
  /\ downstream_list C "start" = ["a"; "b"; "c"]
  /\ get_task C ["start"; "a"; "b"; "c"] (VStr "a") = inr "a"
  /\ exists (skipped : list string) w2,
       only_logged w1 w2
       /\ BranchPythonOperator.execute C self context Demo.empty_world =
            match skip C (@DagRunObject Fork.objects "run 1") "2018-01-01" skipped w2 with
            | (inr _, w3) => (inr VNone, add_log log_done w3)
            | (inl e, w3) => (inl e, w3)
            end
       /\ skipped `sublist_of` ["a"; "b"; "c"]
       /\ (forall t, t ∈ skipped <->
                     t ∈ ["a"; "b"; "c"]
                     /\ str_ne t (VStr "a") = true
                     /\ str_in_tasks C t ["c"] = false)
       /\ (forall t, t ∈ skipped -> VStr "a" <> VStr t).
Proof.
  intros C self context w1.
  assert (H1 : Running.execute C self context Demo.empty_world
               = (inr (VStr "a", (self, context)), w1)) by reflexivity.
  assert (H2 : context !! "task" = Some (@TaskObject Fork.objects "start"))
    by (vm_compute; reflexivity).
  assert (H3 : downstream_list C "start" = ["a"; "b"; "c"]) by reflexivity.
  assert (H4 : get_task C ["start"; "a"; "b"; "c"] (VStr "a") = inr "a") by reflexivity.
  repeat (split; [assumption|]).
  apply (branch_skips_others C self self context context (VStr "a") Demo.empty_world w1
           "start" "a" ["start"; "a"; "b"; "c"] (@DagRunObject Fork.objects "run 1")
           "2018-01-01").
  - exact H1.
  - exact H2.
  - vm_compute; reflexivity.
  - exact H4.
  - rewrite H3. discriminate.
  - vm_compute; reflexivity.
  - vm_compute; reflexivity.
Defined.

Lemma branch_without_downstream_witness :
  let C := Fork.collaborators in
  let self := Fork.operator "choose" in
  let context := Fork.context "c" in
  let w1 := add_log (log_returned (VStr "a")) Demo.empty_world in
  Running.execute C self context Demo.empty_world = (inr (VStr "a", (self, context)), w1)
  /\ context !! "task" = Some (@TaskObject Fork.objects "c")
  /\ downstream_list C "c" = []
  /\ exists w2, BranchPythonOperator.execute C self context Demo.empty_world = (inr VNone, w2)
                /\ only_logged w1 w2.
Proof.
  intros C self context w1.
  assert (H1 : Running.execute C self context Demo.empty_world
               = (inr (VStr "a", (self, context)), w1)) by reflexivity.
  assert (H2 : context !! "task" = Some (@TaskObject Fork.objects "c"))
    by (vm_compute; reflexivity).
  assert (H3 : context !! "dag" = Some (@DagObject Fork.objects ["start"; "a"; "b"; "c"]))
    by (vm_compute; reflexivity).
  assert (H4 : downstream_list C "c" = []) by reflexivity.
  repeat (split; [assumption|]).
  exact (branch_without_downstream C self self context context (VStr "a")
           Demo.empty_world w1 "c" ["start"; "a"; "b"; "c"] H1 H2 H3 H4).
Defined.

Lemma truthy_condition_proceeds_witness :
  let C := Fork.collaborators in
  let self := Fork.operator "choose" in
  let w1 := add_log (log_returned (VStr "a")) Demo.empty_world in
  Running.execute C self ∅ Demo.empty_world = (inr (VStr "a", (self, ∅)), w1)
  /\ truthy C (VStr "a") = true
  /\ exists w2,
       ShortCircuitOperator.execute C self ∅ Demo.empty_world = (inr VNone, w2)
       /\ only_logged w1 w2
       /\ last (logs w2) = Some log_proceeding.
Proof.
  intros C self w1.
  assert (H1 : Running.execute C self ∅ Demo.empty_world = (inr (VStr "a", (self, ∅)), w1))
    by reflexivity.
  assert (H2 : truthy C (VStr "a") = true) by reflexivity.
  split; [exact H1|]. split; [exact H2|].
  exact (truthy_condition_proceeds C self self ∅ ∅ (VStr "a") Demo.empty_world w1 H1 H2).
Defined.

Lemma falsy_condition_skips_downstream_witness :
  let C := Fork.collaborators in
  let self := Fork.operator "never" in
  let context := Fork.context "start" in
  let w1 := add_log (log_returned (VBool false)) Demo.empty_world in
  Running.execute C self context Demo.empty_world = (inr (VBool false, (self, context)), w1)
  /\ truthy C (VBool false) = false
  /\ context !! "task" = Some (@TaskObject Fork.objects "start")
  /\ exists w2,
       only_logged w1 w2
       /\ ShortCircuitOperator.execute C self context Demo.empty_world =
            match skip C (@DagRunObject Fork.objects "run 1") "2018-01-01"
                    ["a"; "b"; "c"] w2 with
            | (inr _, w3) => (inr VNone, add_log log_done w3)
            | (inl e, w3) => (inl e, w3)
            end.
Proof.
  intros C self context w1.
  assert (H1 : Running.execute C self context Demo.empty_world
               = (inr (VBool false, (self, context)), w1)) by reflexivity.
  assert (H2 : truthy C (VBool false) = false) by reflexivity.
  assert (H3 : context !! "task" = Some (@TaskObject Fork.objects "start"))
    by (vm_compute; reflexivity).
  repeat (split; [assumption|]).
  apply (falsy_condition_skips_downstream C self self context context (VBool false)
           Demo.empty_world w1 "start" H1 H2 H3
           (@DagRunObject Fork.objects "run 1") "2018-01-01");
    vm_compute; reflexivity.
Defined.

Lemma callable_error_propagates_witness :
  let C := Fork.collaborators in
  let self := Fork.operator "missing" in
  let context := Fork.context "start" in
  let e := PyError ["NameError"; "Exception"] "missing" in
  call C (Running.python_callable self) (Running.op_args self)
    (call_kwargs self context) Demo.empty_world = (inl e, Demo.empty_world)
  /\ Running.execute C self context Demo.empty_world = (inl e, Demo.empty_world)
  /\ BranchPythonOperator.execute C self context Demo.empty_world
     = (inl e, Demo.empty_world)
  /\ ShortCircuitOperator.execute C self context Demo.empty_world
     = (inl e, Demo.empty_world).
Proof.
  intros C self context e.
  assert (H : call C (Running.python_callable self) (Running.op_args self)
                (call_kwargs self context) Demo.empty_world = (inl e, Demo.empty_world))
    by reflexivity.
  split; [exact H|].
  exact (callable_error_propagates C self context Demo.empty_world Demo.empty_world e H).
Defined.


Lemma context_kept_across_executions_witness :
  let C := Fork.collaborators in
  let self := Fork.context_operator "choose" in
  let c1 := Fork.context "start" in
  let c2 := Fork.context "c" in
  let c1' := call_kwargs self c1 in
  let self1 := Running.set_op_kwargs self c1' in
  let w1 := add_log (log_returned (VStr "a")) Demo.empty_world in
  Running.provide_context self = true
  /\ Running.execute C self c1 Demo.empty_world = (inr (VStr "a", (self1, c1')), w1)
  /\ exists kwargs,
       Running.execute C self1 c2 w1 =
         match call C (Running.python_callable self) (Running.op_args self) kwargs w1 with
         | (inr v', w') =>
             (inr (v', (Running.set_op_kwargs self1 kwargs, kwargs)),
              add_log (log_returned v') w')
         | (inl e, w') => (inl e, w')
         end
       /\ (forall key e, c1 !! key = Some e -> is_Some (c1' !! key))
       /\ (forall key e, c1' !! key = Some e -> kwargs !! key = Some e)
       /\ (forall key, c1' !! key = None -> kwargs !! key = c2 !! key).
Proof.
  intros C self c1 c2 c1' self1 w1.
  assert (H1 : Running.provide_context self = true) by reflexivity.
  assert (H2 : Running.execute C self c1 Demo.empty_world
               = (inr (VStr "a", (self1, c1')), w1)) by reflexivity.
  split; [exact H1|]. split; [exact H2|].
  exact (context_kept_across_executions C self self1 c1 c1' c2 (VStr "a")
           Demo.empty_world w1 w1 H1 H2).
Defined.

End MoreInstances.
